(** * Notes frontend: authentication gating, OTP flow and notes dashboard

    A shallow embedding of the TypeScript sources of the notes client:
    the server-side auth helpers ([getServerAuth], [requireAuth],
    [redirectIfAuthenticated]), the guarded pages, the two edge middlewares,
    the axios-based [ApiService], and the event handlers of the sign-in,
    sign-up and dashboard components.

    Conventions.
    - A JavaScript string is the list of its UTF-16 code units ([list N]);
      [lit] turns a Rocq string literal into such a list.
    - [undefined]/[null] are [None]; truthiness of a string is non-emptiness.
    - Asynchronous code is run to completion: a handler is a computation in
      the monad [Eff W E] over a world [W] that can complete normally or
      throw a value of [E]; [try_catch] and [try_finally] are the JavaScript
      statements of the same names.
    - TypeScript's declared response types are taken at face value.
    - [console.log]/[console.error] do not influence any result and are
      left out. *)

From Stdlib Require Import ZArith NArith String Ascii DecimalString.
From stdpp Require Import base decidable option list gmap.

Local Open Scope Z_scope.

(* ===================================================================== *)
(** ** JavaScript strings *)
(* ===================================================================== *)

Module Js.

Abbreviation jsstring := (list N).

Definition lit (s : string) : jsstring :=
  map N_of_ascii (list_ascii_of_string s).
Arguments lit s%_string.

(** Truthiness of a string value. *)
Definition truthy (s : jsstring) : bool :=
  match s with [] => false | _ => true end.

(** [a || b] on strings where [a] may be [undefined]. *)
Definition or_else (a : option jsstring) (b : jsstring) : jsstring :=
  match a with
  | Some s => if truthy s then s else b
  | None => b
  end.

(** Template-literal interpolation of a possibly undefined string. *)
Definition interpolate (a : option jsstring) : jsstring :=
  match a with Some s => s | None => lit "undefined" end.

Definition eqb (a b : jsstring) : bool := bool_decide (a = b).

(** [s.startsWith(p)] *)
Fixpoint startsWith (p s : jsstring) : bool :=
  match p, s with
  | [], _ => true
  | c :: p', d :: s' => N.eqb c d && startsWith p' s'
  | _ :: _, [] => false
  end.

(** [s.endsWith(p)] *)
Definition endsWith (p s : jsstring) : bool :=
  startsWith (rev p) (rev s).

(** [s.includes(p)] *)
Fixpoint includes (p s : jsstring) : bool :=
  startsWith p s ||
  match s with
  | [] => false
  | _ :: s' => includes p s'
  end.

(** [s.substring(n)] for [n] within bounds or beyond the end. *)
Definition substring (n : nat) (s : jsstring) : jsstring := drop n s.

(** ECMAScript [WhiteSpace] and [LineTerminator] code units, the ones
    [String.prototype.trim] strips. *)
Definition isWhiteSpace (c : N) : bool :=
  ((9 <=? c) && (c <=? 13) || (c =? 32) || (c =? 160) || (c =? 5760)
   || (8192 <=? c) && (c <=? 8202) || (c =? 8232) || (c =? 8233)
   || (c =? 8239) || (c =? 8287) || (c =? 12288) || (c =? 65279))%N.

Fixpoint trimStart (s : jsstring) : jsstring :=
  match s with
  | c :: s' => if isWhiteSpace c then trimStart s' else s
  | [] => []
  end.

Definition trimEnd (s : jsstring) : jsstring := rev (trimStart (rev s)).

(** [s.trim()] *)
Definition trim (s : jsstring) : jsstring := trimEnd (trimStart s).

End Js.
Import Js.

(* ===================================================================== *)
(** ** Computations with a world and exceptions *)
(* ===================================================================== *)

Inductive Completion (E A : Type) : Type :=
  | Normal (a : A)
  | Throw (e : E).
Arguments Normal {E A} a.
Arguments Throw {E A} e.

Definition Eff (W E A : Type) : Type := W → Completion E A * W.

Section Eff.
Context {W E : Type}.

Definition ret {A} (a : A) : Eff W E A := λ w, (Normal a, w).

Definition bind {A B} (m : Eff W E A) (k : A → Eff W E B) : Eff W E B :=
  λ w, match m w with
       | (Normal a, w') => k a w'
       | (Throw e, w') => (Throw e, w')
       end.

Definition throw {A} (e : E) : Eff W E A := λ w, (Throw e, w).

Definition get : Eff W E W := λ w, (Normal w, w).

Definition modify (f : W → W) : Eff W E unit := λ w, (Normal tt, f w).

(** [try { body } catch (error) { handler error }] *)
Definition try_catch {A} (body : Eff W E A) (handler : E → Eff W E A)
  : Eff W E A :=
  λ w, match body w with
       | (Normal a, w') => (Normal a, w')
       | (Throw e, w') => handler e w'
       end.

(** [try { body } finally { fin }]: the completion of [body] is kept
    unless [fin] itself throws. *)
Definition try_finally {A} (body : Eff W E A) (fin : Eff W E unit)
  : Eff W E A :=
  λ w, match body w with
       | (c, w') =>
           match fin w' with
           | (Normal _, w'') => (c, w'')
           | (Throw e, w'') => (Throw e, w'')
           end
       end.
End Eff.

Declare Scope eff_scope.
Delimit Scope eff_scope with eff.
Notation "x <- m ;; k" := (bind m (λ x, k))
  (at level 100, m at next level, right associativity) : eff_scope.
Notation "m ;; k" := (bind m (λ _, k))
  (at level 100, right associativity) : eff_scope.
Local Open Scope eff_scope.

(* ===================================================================== *)
(** ** Entities *)
(* ===================================================================== *)

(** The [User] of lib/auth-server and of the dashboard client. *)
Record User := {
  user_id : jsstring;
  user_email : jsstring;
  user_name : jsstring;
  user_isVerified : bool;
  user_createdAt : jsstring;
}.

Record Note := {
  note_id : jsstring;
  note_title : jsstring;
  note_content : jsstring;
  note_createdAt : jsstring;
  note_updatedAt : jsstring;
}.

(** The interface declarations themselves, as data: field name and
    declared type, in source order. *)
Module Decl.

Inductive TsType := TString | TBoolean.

Definition Interface := list (string * TsType).

(** [interface User] of the server auth helper. *)
Definition auth_server_User : Interface :=
  [("id", TString); ("email", TString); ("name", TString);
   ("isVerified", TBoolean); ("createdAt", TString)]%string.

(** [interface User] of the dashboard client. *)
Definition dashboard_client_User : Interface :=
  [("id", TString); ("email", TString); ("name", TString);
   ("isVerified", TBoolean); ("createdAt", TString)]%string.

(** [export interface User] of the API service. *)
Definition api_User : Interface :=
  [("id", TString); ("email", TString); ("name", TString);
   ("dob", TString); ("isVerified", TBoolean);
   ("createdAt", TString)]%string.

(** [interface Note] of the API service. *)
Definition api_Note : Interface :=
  [("id", TString); ("title", TString); ("content", TString);
   ("createdAt", TString); ("updatedAt", TString)]%string.

Definition fields (i : Interface) : list string := map fst i.

(** The field lists the data model section gives. *)
Definition spec_User_fields : list string :=
  ["id"; "email"; "name"; "isVerified"; "createdAt"]%string.
Definition spec_Note_fields : list string :=
  ["id"; "title"; "content"; "createdAt"; "updatedAt"]%string.

End Decl.

(* ===================================================================== *)
(** ** The profile endpoint as seen through [fetch] *)
(* ===================================================================== *)

Module Fetch.

Record Request := {
  url : jsstring;
  cookie : jsstring;        (* the Cookie header that is sent *)
}.

(** What [await response.json()] followed by [data.data.user] can do. *)
Inductive Json :=
  | JsonRejects                    (* the body is not JSON *)
  | JsonNoData                     (* [data.data] is undefined or null *)
  | JsonData (user : option User). (* [data.data.user] *)

Record Response := {
  status : Z;
  body : Json;
}.

(** [response.ok] *)
Definition ok (r : Response) : bool := (200 <=? status r) && (status r <=? 299).

Inductive Outcome :=
  | Rejects                        (* network failure: [fetch] rejects *)
  | Responds (r : Response).

(** The part of the runtime that both the server helpers and the edge
    middleware use. *)
Record Runtime := {
  NEXT_PUBLIC_API_URL : option jsstring;
  backend : Request → Outcome;
}.

(** What server-side code can throw. *)
Inductive Thrown :=
  | NEXT_REDIRECT (path : jsstring)   (* thrown by [redirect(path)] *)
  | RuntimeError.                      (* rejected promise, TypeError *)

(** Server-side computations log the requests they send. *)
Abbreviation Srv := (Eff (list Request) Thrown).

(** The call both auth checks make:
    [fetch(`${apiUrl}/auth/profile`, { method: "GET", headers: { Cookie, ... } })]. *)
Definition profile_request (rt : Runtime) (cookieHeader : jsstring) : Request :=
  {| url := interpolate (NEXT_PUBLIC_API_URL rt) ++ lit "/auth/profile";
     cookie := cookieHeader |}.

Definition fetch (rt : Runtime) (rq : Request) : Srv Response :=
  λ log, match backend rt rq with
         | Rejects => (Throw RuntimeError, log ++ [rq])
         | Responds r => (Normal r, log ++ [rq])
         end.

(** [await response.json()] *)
Definition json (r : Response) : Srv Json :=
  match body r with
  | JsonRejects => throw RuntimeError
  | j => ret j
  end.

(** [data.data.user] *)
Definition data_data_user (j : Json) : Srv (option User) :=
  match j with
  | JsonData u => ret u
  | _ => throw RuntimeError
  end.

(** [redirect(path)] of next/navigation never returns. *)
Definition redirect {A} (path : jsstring) : Srv A :=
  throw (NEXT_REDIRECT path).

End Fetch.

(* ===================================================================== *)
(** ** lib/auth-server *)
(* ===================================================================== *)

Module AuthServer.
Import Fetch.

Record RequestCookie := { name : jsstring; value : jsstring }.

(** The cookie store of next/headers, through the two methods used. *)
Record CookieStore := {
  cookie_get : jsstring → option RequestCookie;
  cookie_toString : jsstring;
}.

Record Env := {
  runtime : Runtime;
  cookies_result : option CookieStore;  (* [None]: [cookies()] rejects *)
}.

Definition cookies (env : Env) : Srv CookieStore :=
  match cookies_result env with
  | Some s => ret s
  | None => throw RuntimeError
  end.

Record AuthResult := {
  user : option User;
  isAuthenticated : bool;
}.

Definition unauthenticated : AuthResult :=
  {| user := None; isAuthenticated := false |}.

Definition getServerAuth (env : Env) : Srv AuthResult :=
  try_catch
    (cookieStore <- cookies env;;
     let authToken := cookie_get cookieStore (lit "authToken") in
     match authToken with
     | None => ret unauthenticated
     | Some _ =>
         response <- fetch (runtime env)
                       (profile_request (runtime env)
                          (cookie_toString cookieStore));;
         if negb (ok response) then ret unauthenticated
         else
           data <- json response;;
           u <- data_data_user data;;
           ret {| user := u; isAuthenticated := true |}
     end)
    (λ error, ret unauthenticated).

(** [if (!isAuthenticated || !user) redirect(...); return user]: the
    redirect does not return, so [user] is returned only when it is set
    and [isAuthenticated] holds. *)
Definition requireAuth (env : Env) : Srv User :=
  r <- getServerAuth env;;
  match isAuthenticated r, user r with
  | true, Some u => ret u
  | _, _ => redirect (lit "/signin")
  end.

Definition redirectIfAuthenticated (env : Env) : Srv unit :=
  r <- getServerAuth env;;
  if isAuthenticated r then redirect (lit "/dashboard") else ret tt.

End AuthServer.

(* ===================================================================== *)
(** ** The server-rendered pages *)
(* ===================================================================== *)

Module Pages.
Import Fetch AuthServer.

(** The client component a page hands to the renderer. *)
Inductive Element :=
  | DashboardClient (initialUser : User)
  | SignInClient
  | SignUpClient.

Definition DashboardPage (env : Env) : Srv Element :=
  u <- requireAuth env;;
  ret (DashboardClient u).

Definition SignInPage (env : Env) : Srv Element :=
  redirectIfAuthenticated env;;
  ret SignInClient.

Definition SignUpPage (env : Env) : Srv Element :=
  redirectIfAuthenticated env;;
  ret SignUpClient.

(** What the framework does with a page: it renders the element or
    answers with a redirect. *)
Inductive Served :=
  | Rendered (e : Element)
  | Redirected (path : jsstring)
  | Failed.

Definition serve (page : Env → Srv Element) (env : Env) : Served :=
  match fst (page env []) with
  | Normal e => Rendered e
  | Throw (NEXT_REDIRECT p) => Redirected p
  | Throw RuntimeError => Failed
  end.

End Pages.

(* ===================================================================== *)
(** ** The edge middlewares *)
(* ===================================================================== *)

Module Edge.

Record NextRequest := {
  pathname : jsstring;                (* [request.nextUrl.pathname] *)
  origin : jsstring;                  (* scheme and host of [request.url] *)
  cookie_header : option jsstring;    (* [request.headers.get("cookie")] *)
}.

Record URL := {
  url_origin : jsstring;
  url_pathname : jsstring;
  searchParams : list (jsstring * jsstring);
}.

(** [new URL(path, request.url)] for an absolute [path]: the origin of the
    request, the given path, no query. *)
Definition new_URL (path : jsstring) (request : NextRequest) : URL :=
  {| url_origin := origin request; url_pathname := path; searchParams := [] |}.

(** [url.searchParams.set(k, v)] *)
Fixpoint searchParams_set (k v : jsstring) (ps : list (jsstring * jsstring))
  : list (jsstring * jsstring) :=
  match ps with
  | [] => [(k, v)]
  | (k', v') :: rest =>
      if eqb k k' then (k, v) :: filter (λ p, p.1 ≠ k) rest
      else (k', v') :: searchParams_set k v rest
  end.

Definition set_search (k v : jsstring) (u : URL) : URL :=
  {| url_origin := url_origin u; url_pathname := url_pathname u;
     searchParams := searchParams_set k v (searchParams u) |}.

Inductive NextResponse :=
  | redirect (to : URL)       (* [NextResponse.redirect(url)] *)
  | next.                     (* [NextResponse.next()] *)

(** Where a response routes the browser: the path of the redirect, or
    nowhere when the request is passed on. *)
Definition routed_to (r : NextResponse) : option jsstring :=
  match r with
  | redirect u => Some (url_pathname u)
  | next => None
  end.

End Edge.

(** src/middleware.ts *)
Module RootMiddleware.
Import Fetch Edge.

Definition middleware (request : NextRequest) : Srv NextResponse :=
  if eqb (pathname request) (lit "/")
  then ret (redirect (new_URL (lit "/signin") request))
  else ret next.

(** [config.matcher = ["/"]] *)
Definition matcher (path : jsstring) : bool := eqb path (lit "/").

End RootMiddleware.

(** The middleware that checks authentication against the backend. *)
Module GatingMiddleware.
Import Fetch Edge.

Definition protectedRoutes : list jsstring := [lit "/dashboard"].
Definition authRoutes : list jsstring := [lit "/signin"; lit "/signup"].

Definition checkAuthentication (rt : Runtime) (request : NextRequest)
  : Srv bool :=
  try_catch
    (let cookieHeader := or_else (cookie_header request) (lit "") in
     (* computed but unused: the early return on it is commented out *)
     let hasAuthToken := includes (lit "authToken=") cookieHeader in
     response <- fetch rt (profile_request rt cookieHeader);;
     data <- json response;;
     if status response =? 401 then ret false
     else ret (ok response && (status response =? 200)))
    (λ error, ret false).

Definition middleware (rt : Runtime) (request : NextRequest)
  : Srv NextResponse :=
  let isProtectedRoute :=
    existsb (λ route, startsWith route (pathname request)) protectedRoutes in
  let isAuthRoute :=
    existsb (λ route, startsWith route (pathname request)) authRoutes in
  isAuthenticated <- checkAuthentication rt request;;
  if isProtectedRoute && negb isAuthenticated then
    let signinUrl := new_URL (lit "/signin") request in
    let signinUrl := set_search (lit "redirect") (pathname request) signinUrl in
    ret (redirect signinUrl)
  else if isAuthRoute && isAuthenticated then
    ret (redirect (new_URL (lit "/dashboard") request))
  else if eqb (pathname request) (lit "/") then
    if isAuthenticated
    then ret (redirect (new_URL (lit "/dashboard") request))
    else ret (redirect (new_URL (lit "/signin") request))
  else ret next.

Definition isLineTerminator (c : N) : bool :=
  ((c =? 10) || (c =? 13) || (c =? 8232) || (c =? 8233))%N.

Definition imageExtensions : list jsstring :=
  [lit "svg"; lit "png"; lit "jpg"; lit "jpeg"; lit "gif"; lit "webp"].

(** The negative lookahead of [config.matcher], tried right after the
    leading slash, on a remainder without line terminators:
    the prefixes api, _next/static, _next/image, favicon followed by any
    character and ico, or a remainder that ends in a dot and one of the
    image extensions. *)
Definition excluded (rest : jsstring) : bool :=
  startsWith (lit "api") rest
  || startsWith (lit "_next/static") rest
  || startsWith (lit "_next/image") rest
  || (startsWith (lit "favicon") rest
      && match drop 7 rest with
         | _ :: r => startsWith (lit "ico") r
         | [] => false
         end)
  || existsb (λ ext, endsWith (lit "." ++ ext) rest) imageExtensions.

(** [config.matcher], read as an anchored regular expression: a slash,
    then any remainder on which the lookahead fails; a dot does not match a
    line terminator. *)
Definition matcher (path : jsstring) : bool :=
  match path with
  | c :: rest =>
      (c =? 47)%N && forallb (λ d, negb (isLineTerminator d)) rest
      && negb (excluded rest)
  | [] => false
  end.

End GatingMiddleware.

(* ===================================================================== *)
(** ** HTTP through axios *)
(* ===================================================================== *)

Module Http.

Inductive Method := GET | POST | PUT | DELETE.

(** The object handed to axios as request data (or as [params]). *)
Inductive Body :=
  | NoBody
  | SignupBody (name email dob : jsstring) (otp : option jsstring)
  | LoginBody (email : jsstring)
  | VerifyOTPBody (email otp : jsstring)
  | ResendOTPBody (email : jsstring)
  | NotesParams (page limit : jsstring) (search : option jsstring)
  | CreateNoteBody (title content : jsstring)
  | UpdateNoteBody (title content : option jsstring).

Record Request := {
  method : Method;
  url : jsstring;
  Authorization : option jsstring;
  body : Body;
}.

(** [interface ApiResponse<T>] *)
Record ApiResponse (T : Type) := {
  success : bool;
  message : option jsstring;
  data : option T;
}.
Arguments success {T}.
Arguments message {T}.
Arguments data {T}.

Record AxiosResponse (T : Type) := {
  status : Z;
  headers : gmap jsstring jsstring;     (* lower-cased names *)
  response_data : ApiResponse T;
}.
Arguments status {T}.
Arguments headers {T}.
Arguments response_data {T}.

(** The response attached to an [AxiosError]: [data] may be absent, and
    so may its [message]. *)
Record ErrorResponse := {
  error_status : Z;
  error_data : option (option jsstring);
}.

(** The values that are thrown on the client. *)
Inductive JsError :=
  | AxiosError (response : option ErrorResponse)
  | Error (message : jsstring)
  | TypeError.

(** [isAxiosError(payload)]: true exactly for the errors axios creates. *)
Definition isAxiosError (e : JsError) : bool :=
  match e with AxiosError _ => true | _ => false end.

Definition response (e : JsError) : option ErrorResponse :=
  match e with AxiosError r => r | _ => None end.

(** [error.response?.status] *)
Definition response_status (e : JsError) : option Z :=
  error_status <$> response e.

(** [error.response?.data?.message] *)
Definition response_data_message (e : JsError) : option jsstring :=
  r ← response e; d ← error_data r; d.

Inductive Outcome (T : Type) :=
  | Fulfilled (r : AxiosResponse T)
  | Rejected (e : JsError).
Arguments Fulfilled {T} r.
Arguments Rejected {T} e.

(** The endpoints of the remote API and the payload type the service
    declares for each. *)
Inductive Endpoint :=
  | EpSignup | EpVerifyOTP | EpLogin | EpResendOTP | EpProfile | EpLogout
  | EpNotes | EpCreateNote | EpUpdateNote | EpDeleteNote | EpNoteById.

(** [export interface User] of the service: it also carries [dob]. *)
Record ProfileUser := {
  profile_user : User;
  profile_dob : jsstring;
}.

Record VerifiedUser := { v_id : jsstring; v_email : jsstring; v_name : jsstring }.

Record Pagination := {
  currentPage : Z;
  totalPages : Z;
  totalNotes : Z;
  hasNext : bool;
  hasPrev : bool;
}.

Record NotesData := { notes : list Note; pagination : Pagination }.
Record NoteData := { note : Note }.

Definition Payload (e : Endpoint) : Type :=
  match e with
  | EpVerifyOTP => VerifiedUser
  | EpProfile => ProfileUser
  | EpNotes => NotesData
  | EpCreateNote | EpUpdateNote | EpNoteById => NoteData
  | EpSignup | EpLogin | EpResendOTP | EpLogout | EpDeleteNote => jsstring
  end.

(** The remote API, an external collaborator: what it answers to a request
    may depend on the requests sent before. *)
Definition Server : Type :=
  ∀ e : Endpoint, list Request → Request → Outcome (Payload e).

End Http.

(* ===================================================================== *)
(** ** Entities as run-time objects *)
(* ===================================================================== *)

(** What a value of an entity type is at run time: an object with a value
    under each declared field. This ties the interface declarations of
    [Decl] to the records the model computes with. *)
Module Shape.
Import Decl.

Inductive JsValue :=
  | VString (s : jsstring)
  | VBoolean (b : bool).

Definition typeOf (v : JsValue) : TsType :=
  match v with
  | VString _ => TString
  | VBoolean _ => TBoolean
  end.

(** An object: its fields and their values, in declaration order. *)
Definition Object := list (string * JsValue).

(** The interface an object has: its field names with the types of the
    values under them. *)
Definition shape (o : Object) : Interface :=
  map (λ kv, (kv.1, typeOf kv.2)) o.

(** A [User] of the server auth helper and of the dashboard client. *)
Definition object_of_User (u : User) : Object :=
  [("id", VString (user_id u)); ("email", VString (user_email u));
   ("name", VString (user_name u));
   ("isVerified", VBoolean (user_isVerified u));
   ("createdAt", VString (user_createdAt u))]%string.

(** A [User] as the API service exports it. *)
Definition object_of_ProfileUser (p : Http.ProfileUser) : Object :=
  let u := Http.profile_user p in
  [("id", VString (user_id u)); ("email", VString (user_email u));
   ("name", VString (user_name u)); ("dob", VString (Http.profile_dob p));
   ("isVerified", VBoolean (user_isVerified u));
   ("createdAt", VString (user_createdAt u))]%string.

Definition object_of_Note (n : Note) : Object :=
  [("id", VString (note_id n)); ("title", VString (note_title n));
   ("content", VString (note_content n));
   ("createdAt", VString (note_createdAt n));
   ("updatedAt", VString (note_updatedAt n))]%string.

End Shape.

(* ===================================================================== *)
(** ** The browser *)
(* ===================================================================== *)

Module Browser.

Inductive Nav :=
  | router_push (path : jsstring)
  | location_href (path : jsstring).    (* [window.location.href = path] *)

(** Where a navigation sends the browser. *)
Definition target (n : Nav) : jsstring :=
  match n with router_push p | location_href p => p end.

(** A callback handed to [setTimeout]. *)
Inductive Callback := push_later (path : jsstring).

(** The world of client-side code: the state of the mounted component,
    localStorage, the requests sent so far, the navigations performed so
    far, the pending timers (delay and callback), and whether the event
    being handled had its default action prevented. *)
Record World (S : Type) := {
  ui : S;
  localStorage : gmap jsstring jsstring;
  sent : list Http.Request;
  navigation : list Nav;
  timers : list (Z * Callback);
  defaultPrevented : bool;
}.
Arguments ui {S}.
Arguments localStorage {S}.
Arguments sent {S}.
Arguments navigation {S}.
Arguments timers {S}.
Arguments defaultPrevented {S}.

Section Setters.
Context {S : Type}.

Definition with_ui (f : S → S) (w : World S) : World S :=
  {| ui := f (ui w); localStorage := localStorage w; sent := sent w;
     navigation := navigation w; timers := timers w;
     defaultPrevented := defaultPrevented w |}.

Definition with_localStorage (f : gmap jsstring jsstring → gmap jsstring jsstring)
  (w : World S) : World S :=
  {| ui := ui w; localStorage := f (localStorage w); sent := sent w;
     navigation := navigation w; timers := timers w;
     defaultPrevented := defaultPrevented w |}.

Definition with_sent (rq : Http.Request) (w : World S) : World S :=
  {| ui := ui w; localStorage := localStorage w; sent := sent w ++ [rq];
     navigation := navigation w; timers := timers w;
     defaultPrevented := defaultPrevented w |}.

Definition with_navigation (n : Nav) (w : World S) : World S :=
  {| ui := ui w; localStorage := localStorage w; sent := sent w;
     navigation := navigation w ++ [n]; timers := timers w;
     defaultPrevented := defaultPrevented w |}.

Definition with_timers (f : list (Z * Callback) → list (Z * Callback))
  (w : World S) : World S :=
  {| ui := ui w; localStorage := localStorage w; sent := sent w;
     navigation := navigation w; timers := f (timers w);
     defaultPrevented := defaultPrevented w |}.

Definition with_defaultPrevented (w : World S) : World S :=
  {| ui := ui w; localStorage := localStorage w; sent := sent w;
     navigation := navigation w; timers := timers w;
     defaultPrevented := true |}.

Abbreviation Cl := (Eff (World S) Http.JsError).

(** A [useState] setter. *)
Definition setState (f : S → S) : Cl unit := modify (with_ui f).

(** [localStorage.getItem(k)] *)
Definition getItem (k : jsstring) : Cl (option jsstring) :=
  w <- get;; ret (localStorage w !! k).

(** [localStorage.setItem(k, v)] *)
Definition setItem (k v : jsstring) : Cl unit :=
  modify (with_localStorage (insert k v)).

(** [localStorage.removeItem(k)] *)
Definition removeItem (k : jsstring) : Cl unit :=
  modify (with_localStorage (delete k)).

(** [router.push(path)] *)
Definition push (path : jsstring) : Cl unit :=
  modify (with_navigation (router_push path)).

(** [window.location.href = path] *)
Definition set_location_href (path : jsstring) : Cl unit :=
  modify (with_navigation (location_href path)).

(** [setTimeout(cb, delay)] *)
Definition setTimeout (cb : Callback) (delay : Z) : Cl unit :=
  modify (with_timers (λ ts, ts ++ [(delay, cb)])).

(** [event.preventDefault()] *)
Definition preventDefault : Cl unit := modify with_defaultPrevented.

Definition run_callback (cb : Callback) : Cl unit :=
  match cb with push_later p => push p end.

(** The event loop firing every pending timer, in the order they were
    set; the delays themselves are not modelled. *)
Definition fire_timers (w : World S) : World S :=
  foldl (λ w' t, snd (run_callback t.2 w')) (with_timers (λ _, []) w) (timers w).

End Setters.

End Browser.

(* ===================================================================== *)
(** ** lib/api: the [ApiService] *)
(* ===================================================================== *)

Module Api.
Import Http Browser.

(** The object the sign-up form passes to [signup]: the declared
    [SignupData] fields and the form's optional [otp], which travels along
    because the whole [values] object is posted. *)
Record SignupData := {
  name : jsstring;
  email : jsstring;
  dob : jsstring;
  otp : option jsstring;
}.


(** [Number.prototype.toString] on a natural number that is at most
    [MAX_SAFE_INTEGER]: its decimal digits. Larger numbers are outside the
    model: doubles round above 2^53 and print in exponent form from 1e21,
    so statements that name the printed page or limit are made for safe
    integers only. *)
Definition toString (n : N) : jsstring :=
  lit (DecimalString.NilZero.string_of_uint (N.to_uint n)).

(** [if (token) config.headers.Authorization = `Bearer ${token}`] *)
Definition bearer (token : option jsstring) (config : Request) : Request :=
  match token with
  | Some t =>
      if truthy t
      then {| method := method config; url := url config;
              Authorization := Some (lit "Bearer " ++ t);
              body := body config |}
      else config
  | None => config
  end.

(** The request that leaves the browser from world [w]: the one the
    method builds, with the header the interceptor adds. *)
Definition outgoing {S : Type} (w : World S) (m : Method) (u : jsstring)
  (b : Body) : Request :=
  bearer (localStorage w !! lit "authToken")
    {| method := m; url := u; Authorization := None; body := b |}.

Section Service.
Context {S : Type} (server : Server).

Abbreviation Cl := (Eff (World S) JsError).

(** The callback [setupRequestInterceptor] registers: it runs on every
    request of the axios instance. *)
Definition requestInterceptor (config : Request) : Cl Request :=
  token <- getItem (lit "authToken");;
  ret (bearer token config).

(** A call on [axiosInstance]: the interceptor, then the exchange with the
    remote API. *)
Definition axios (e : Endpoint) (m : Method) (u : jsstring) (b : Body)
  : Cl (AxiosResponse (Payload e)) :=
  config <- requestInterceptor
              {| method := m; url := u; Authorization := None; body := b |};;
  w <- get;;
  modify (with_sent config);;
  match server e (sent w) config with
  | Fulfilled r => ret r
  | Rejected err => throw err
  end.

Definition handleResponse {T} (response : AxiosResponse T)
  : Cl (ApiResponse T) :=
  ret (response_data response).

(** [error.response?.data.message]: a response without data makes the
    property access throw. *)
Definition response_data_message_strict (e : JsError)
  : Cl (option jsstring) :=
  match response e with
  | None => ret None
  | Some r =>
      match error_data r with
      | None => throw TypeError
      | Some m => ret m
      end
  end.

(** The catch clause shared by most methods:
    [if (isAxiosError(error)) throw new Error(error.response?.data?.message || fallback);
     throw new Error(fallback)]. *)
Definition rethrow {A} (fallback : jsstring) (error : JsError) : Cl A :=
  if isAxiosError error
  then throw (Error (or_else (response_data_message error) fallback))
  else throw (Error fallback).

Definition signup (userData : SignupData) : Cl (ApiResponse jsstring) :=
  try_catch
    (response <- axios EpSignup POST (lit "/auth/signup")
                   (SignupBody (name userData) (email userData)
                      (dob userData) (otp userData));;
     handleResponse response)
    (λ error,
       if isAxiosError error then
         m <- response_data_message_strict error;;
         throw (Error (or_else m (lit "Signup failed")))
       else throw (Error (lit "Signup failed"))).

Definition verifyOTP (email otp : jsstring) : Cl (ApiResponse VerifiedUser) :=
  try_catch
    (response <- axios EpVerifyOTP POST (lit "/auth/verify-otp")
                   (VerifyOTPBody email otp);;
     let authHeader := headers response !! lit "authorization" in
     match authHeader with
     | Some h =>
         if truthy h && startsWith (lit "Bearer ") h then
           let token := substring 7 h in
           setItem (lit "authToken") token
         else ret tt
     | None => ret tt
     end;;
     result <- handleResponse response;;
     ret result)
    (rethrow (lit "OTP verification failed")).

Definition login (email : jsstring) : Cl (ApiResponse jsstring) :=
  try_catch
    (response <- axios EpLogin POST (lit "/auth/login") (LoginBody email);;
     handleResponse response)
    (rethrow (lit "Login failed")).

Definition resendOTP (email : jsstring) : Cl (ApiResponse jsstring) :=
  try_catch
    (response <- axios EpResendOTP POST (lit "/auth/resend-otp")
                   (ResendOTPBody email);;
     handleResponse response)
    (rethrow (lit "Resend OTP failed")).

Definition getProfile : Cl (ApiResponse ProfileUser) :=
  try_catch
    (response <- axios EpProfile GET (lit "/auth/profile") NoBody;;
     handleResponse response)
    (rethrow (lit "Get profile failed")).

(** In the browser [typeof window !== "undefined"] holds. *)
Definition getNotes (page limit : N) (search : option jsstring)
  : Cl (ApiResponse NotesData) :=
  try_catch
    (let params :=
       NotesParams (toString page) (toString limit)
         (match search with
          | Some s => if truthy s then Some s else None
          | None => None
          end) in
     response <- axios EpNotes GET (lit "/notes") params;;
     handleResponse response)
    (λ error,
       if isAxiosError error then
         (if bool_decide (response_status error = Some 401) then
            removeItem (lit "authToken");;
            set_location_href (lit "/signin")
          else ret tt);;
         throw (Error (or_else (response_data_message error)
                         (lit "Get notes failed")))
       else throw (Error (lit "Get notes failed"))).

Definition createNote (title content : jsstring) : Cl (ApiResponse NoteData) :=
  try_catch
    (response <- axios EpCreateNote POST (lit "/notes")
                   (CreateNoteBody title content);;
     handleResponse response)
    (rethrow (lit "Create note failed")).

Definition updateNote (id : jsstring) (title content : option jsstring)
  : Cl (ApiResponse NoteData) :=
  try_catch
    (response <- axios EpUpdateNote PUT (lit "/notes/" ++ id)
                   (UpdateNoteBody title content);;
     handleResponse response)
    (rethrow (lit "Update note failed")).

Definition deleteNote (id : jsstring) : Cl (ApiResponse jsstring) :=
  try_catch
    (response <- axios EpDeleteNote DELETE (lit "/notes/" ++ id) NoBody;;
     handleResponse response)
    (rethrow (lit "Delete note failed")).

Definition getNoteById (id : jsstring) : Cl (ApiResponse NoteData) :=
  try_catch
    (response <- axios EpNoteById GET (lit "/notes/" ++ id) NoBody;;
     handleResponse response)
    (rethrow (lit "Get note failed")).

Definition logout : Cl (ApiResponse jsstring) :=
  try_catch
    (response <- axios EpLogout POST (lit "/auth/logout") NoBody;;
     removeItem (lit "authToken");;
     handleResponse response)
    (rethrow (lit "Logout failed")).

Definition hasLocalToken : Cl bool :=
  token <- getItem (lit "authToken");;
  ret (match token with Some t => truthy t | None => false end).

(** Every public method of the service, with its arguments. *)
Inductive Operation :=
  | OpSignup (userData : SignupData)
  | OpVerifyOTP (email otp : jsstring)
  | OpLogin (email : jsstring)
  | OpResendOTP (email : jsstring)
  | OpGetProfile
  | OpGetNotes (page limit : N) (search : option jsstring)
  | OpCreateNote (title content : jsstring)
  | OpUpdateNote (id : jsstring) (title content : option jsstring)
  | OpDeleteNote (id : jsstring)
  | OpGetNoteById (id : jsstring)
  | OpLogout
  | OpHasLocalToken.

(** Calling a method and dropping what it resolves to. *)
Definition call (op : Operation) : Cl unit :=
  match op with
  | OpSignup d => signup d;; ret tt
  | OpVerifyOTP e o => verifyOTP e o;; ret tt
  | OpLogin e => login e;; ret tt
  | OpResendOTP e => resendOTP e;; ret tt
  | OpGetProfile => getProfile;; ret tt
  | OpGetNotes p l s => getNotes p l s;; ret tt
  | OpCreateNote t c => createNote t c;; ret tt
  | OpUpdateNote i t c => updateNote i t c;; ret tt
  | OpDeleteNote i => deleteNote i;; ret tt
  | OpGetNoteById i => getNoteById i;; ret tt
  | OpLogout => logout;; ret tt
  | OpHasLocalToken => hasLocalToken;; ret tt
  end.

(** Calling methods one after the other; the world after the last. *)
Definition calls (ops : list Operation) (w : World S) : World S :=
  foldl (λ w' op, (call op w').2) w ops.

(** Token handling as the spec words it: after a fulfilled OTP
    verification whose Authorization header starts with [Bearer ], the
    rest of the header is stored under [authToken], and every request sent
    by any method called afterwards, however many calls later, carries it
    as a Bearer header. *)
Definition token_attached_ever_after : Prop :=
  ∀ (w : World S) (email otp : jsstring) r h,
    server EpVerifyOTP (sent w)
      (outgoing w POST (lit "/auth/verify-otp") (VerifyOTPBody email otp))
    = Fulfilled r →
    headers r !! lit "authorization" = Some h →
    startsWith (lit "Bearer ") h = true →
    let w1 := (verifyOTP email otp w).2 in
    localStorage w1 !! lit "authToken" = Some (substring 7 h)
    ∧ ∀ ops op, op ≠ OpHasLocalToken →
        let wn := calls ops w1 in
        ∃ rq, sent (call op wn).2 = sent wn ++ [rq]
              ∧ Authorization rq = Some (lit "Bearer " ++ substring 7 h).

End Service.

End Api.

(* ===================================================================== *)
(** ** The dashboard client component *)
(* ===================================================================== *)

Module Dashboard.
Import Http Browser.

Record State := {
  notes : list Note;
  isDialogOpen : bool;
  newNoteTitle : jsstring;
  newNoteContent : jsstring;
  isLoading : bool;
  isCreating : bool;
  error : option jsstring;
}.

(** The initial render: the [useState] defaults. *)
Definition initial : State :=
  {| notes := []; isDialogOpen := false; newNoteTitle := [];
     newNoteContent := []; isLoading := true; isCreating := false;
     error := None |}.

Abbreviation Cl := (Eff (World State) JsError).

Definition setNotes (f : list Note → list Note) : Cl unit :=
  setState (λ s, {| notes := f (notes s); isDialogOpen := isDialogOpen s;
                    newNoteTitle := newNoteTitle s;
                    newNoteContent := newNoteContent s;
                    isLoading := isLoading s; isCreating := isCreating s;
                    error := error s |}).

Definition setIsDialogOpen (b : bool) : Cl unit :=
  setState (λ s, {| notes := notes s; isDialogOpen := b;
                    newNoteTitle := newNoteTitle s;
                    newNoteContent := newNoteContent s;
                    isLoading := isLoading s; isCreating := isCreating s;
                    error := error s |}).

Definition setNewNoteTitle (t : jsstring) : Cl unit :=
  setState (λ s, {| notes := notes s; isDialogOpen := isDialogOpen s;
                    newNoteTitle := t;
                    newNoteContent := newNoteContent s;
                    isLoading := isLoading s; isCreating := isCreating s;
                    error := error s |}).

Definition setNewNoteContent (c : jsstring) : Cl unit :=
  setState (λ s, {| notes := notes s; isDialogOpen := isDialogOpen s;
                    newNoteTitle := newNoteTitle s;
                    newNoteContent := c;
                    isLoading := isLoading s; isCreating := isCreating s;
                    error := error s |}).

Definition setIsLoading (b : bool) : Cl unit :=
  setState (λ s, {| notes := notes s; isDialogOpen := isDialogOpen s;
                    newNoteTitle := newNoteTitle s;
                    newNoteContent := newNoteContent s;
                    isLoading := b; isCreating := isCreating s;
                    error := error s |}).

Definition setIsCreating (b : bool) : Cl unit :=
  setState (λ s, {| notes := notes s; isDialogOpen := isDialogOpen s;
                    newNoteTitle := newNoteTitle s;
                    newNoteContent := newNoteContent s;
                    isLoading := isLoading s; isCreating := b;
                    error := error s |}).

Definition setError (e : option jsstring) : Cl unit :=
  setState (λ s, {| notes := notes s; isDialogOpen := isDialogOpen s;
                    newNoteTitle := newNoteTitle s;
                    newNoteContent := newNoteContent s;
                    isLoading := isLoading s; isCreating := isCreating s;
                    error := e |}).

Section Handlers.
Context (server : Server).

(** The catch clause the three notes handlers share, up to the fallback
    text. *)
Definition on_error (fallback : jsstring) (err : JsError) : Cl unit :=
  if isAxiosError err then
    if bool_decide (response_status err = Some 401) then
      push (lit "/signin")
    else
      m <- Api.response_data_message_strict err;;
      setError (Some (or_else m fallback))
  else ret tt.

Definition fetchNotes : Cl unit :=
  try_finally
    (try_catch
       (response <- Api.getNotes server 1 10 None;;
        match success response, data response with
        | true, Some d => setNotes (λ _, Http.notes d)
        | _, _ => ret tt
        end)
       (on_error (lit "Failed to load notes")))
    (setIsLoading false).

Definition handleCreateNote : Cl unit :=
  preventDefault;;
  w <- get;;
  let title := newNoteTitle (ui w) in
  let content := newNoteContent (ui w) in
  if eqb (trim title) (lit "") then ret tt
  else
    setIsCreating true;;
    try_finally
      (try_catch
         (response <- Api.createNote server title content;;
          match success response, data response with
          | true, Some d =>
              setNotes (λ prevNotes, note d :: prevNotes);;
              setNewNoteTitle (lit "");;
              setNewNoteContent (lit "");;
              setIsDialogOpen false
          | _, _ => ret tt
          end)
         (on_error (lit "Failed to create note")))
      (setIsCreating false).

Definition handleDeleteNote (id : jsstring) : Cl unit :=
  try_catch
    (Api.deleteNote server id;;
     setNotes (λ prevNotes, filter (λ n, note_id n ≠ id) prevNotes))
    (on_error (lit "Failed to delete note")).

Definition handleLogout : Cl unit :=
  try_catch
    (Api.logout server;;
     push (lit "/signin"))
    (λ err, push (lit "/signin")).

End Handlers.

(** The spec's wording of a deletion: drop every note whose id is the
    argument, keep the others as they are and in order. *)
Fixpoint remove_by_id (id : jsstring) (l : list Note) : list Note :=
  match l with
  | [] => []
  | n :: rest =>
      if eqb (note_id n) id then remove_by_id id rest
      else n :: remove_by_id id rest
  end.

End Dashboard.

(* ===================================================================== *)
(** ** The sign-in and sign-up forms *)
(* ===================================================================== *)

Module AuthForm.
Import Http Browser.

(** The three [useState] cells the forms share. *)
Record State := {
  isLoading : bool;
  error : option jsstring;
  otpSent : bool;
}.

Definition initial : State :=
  {| isLoading := false; error := None; otpSent := false |}.

Abbreviation Cl := (Eff (World State) JsError).

Definition setIsLoading (b : bool) : Cl unit :=
  setState (λ s, {| isLoading := b; error := error s; otpSent := otpSent s |}).

Definition setError (e : option jsstring) : Cl unit :=
  setState (λ s, {| isLoading := isLoading s; error := e; otpSent := otpSent s |}).

Definition setOtpSent (b : bool) : Cl unit :=
  setState (λ s, {| isLoading := isLoading s; error := error s; otpSent := b |}).

(** The catch clause of every [onSubmit]. *)
Definition on_error (err : JsError) : Cl unit :=
  if isAxiosError err then
    m <- Api.response_data_message_strict err;;
    setError (Some (or_else m (lit "Authentication failed. Please try again.")))
  else ret tt.

(** The values of the sign-in form. *)
Record SignInValues := { email : jsstring; otp : option jsstring }.

End AuthForm.

(** src/app/signin/signin-client.tsx *)
Module SignInClient.
Import Http Browser AuthForm.

Definition onSubmit (server : Server) (values : SignInValues) : Cl unit :=
  w <- get;;
  setIsLoading true;;
  setError None;;
  try_finally
    (try_catch
       (if negb (otpSent (ui w)) then
          response <- Api.login server (email values);;
          if success response then
            setOtpSent true;;
            setError None
          else ret tt
        else
          response <- Api.verifyOTP server (email values)
                        (or_else (otp values) (lit ""));;
          if success response then
            setTimeout (push_later (lit "/dashboard")) 100
          else ret tt)
       on_error)
    (setIsLoading false).

End SignInClient.

(** The earlier sign-in page, a client component of its own: it pushes the
    route at once. *)
Module SignInPageClient.
Import Http Browser AuthForm.

Definition onSubmit (server : Server) (values : SignInValues) : Cl unit :=
  w <- get;;
  setIsLoading true;;
  setError None;;
  try_finally
    (try_catch
       (if negb (otpSent (ui w)) then
          response <- Api.login server (email values);;
          if success response then
            setOtpSent true;;
            setError None
          else ret tt
        else
          response <- Api.verifyOTP server (email values)
                        (or_else (otp values) (lit ""));;
          if success response then
            push (lit "/dashboard")
          else ret tt)
       on_error)
    (setIsLoading false).

End SignInPageClient.

(** The sign-up client component. *)
Module SignUpClient.
Import Http Browser AuthForm.

Definition onSubmit (server : Server) (values : Api.SignupData) : Cl unit :=
  w <- get;;
  setIsLoading true;;
  setError None;;
  try_finally
    (try_catch
       (if negb (otpSent (ui w)) then
          response <- Api.signup server values;;
          if success response then
            setOtpSent true;;
            setError None
          else ret tt
        else
          response <- Api.verifyOTP server (Api.email values)
                        (or_else (Api.otp values) (lit ""));;
          if success response then
            setTimeout (push_later (lit "/dashboard")) 100
          else ret tt)
       on_error)
    (setIsLoading false).

End SignUpClient.

(* ===================================================================== *)
(** ** The home page *)
(* ===================================================================== *)

(** src/app/page.tsx, a client component mounted on the root path. *)
Module Home.
Import Http Browser.

(** The [useState] cell of the component, and beside it the paths handed
    to [router.replace], in call order: a replace swaps the current history
    entry, which the navigation log of the world (pushes and location
    assignments) does not record. *)
Record State := {
  isChecking : bool;
  replaced : list jsstring;
}.

Definition initial : State := {| isChecking := true; replaced := [] |}.

Abbreviation Cl := (Eff (World State) JsError).

Definition setIsChecking (b : bool) : Cl unit :=
  setState (λ s, {| isChecking := b; replaced := replaced s |}).

(** [router.replace(path)] *)
Definition replace (path : jsstring) : Cl unit :=
  setState (λ s, {| isChecking := isChecking s;
                    replaced := replaced s ++ [path] |}).

Definition checkAuthAndRedirect (server : Server) : Cl unit :=
  try_finally
    (try_catch
       (response <- Api.getProfile server;;
        if success response
        then replace (lit "/dashboard")
        else replace (lit "/signin"))
       (λ error, replace (lit "/signin")))
    (setIsChecking false).

End Home.

(* ===================================================================== *)
(** ** The three gates side by side *)
(* ===================================================================== *)

(** Each implementation of the gate, as a function from a request path to
    its routing decision; [None] when the implementation does not handle
    the path. Which page calls which helper is the layout of the app
    directory: app/dashboard, app/signin, app/signup. *)
Module Gating.
Import Fetch Edge Browser.

Inductive Decision :=
  | RouteTo (path : jsstring)
  | Serve
  | Crash.

Definition of_served (s : Pages.Served) : Decision :=
  match s with
  | Pages.Redirected p => RouteTo p
  | Pages.Rendered _ => Serve
  | Pages.Failed => Crash
  end.

Definition of_response (c : Completion Thrown NextResponse) : Decision :=
  match c with
  | Normal r =>
      match routed_to r with
      | Some p => RouteTo p
      | None => Serve
      end
  | Throw _ => Crash
  end.

(** lib/auth-server, through the pages that call it. *)
Definition server_helpers (env : AuthServer.Env) (path : jsstring)
  : option Decision :=
  if eqb path (lit "/dashboard")
  then Some (of_served (Pages.serve Pages.DashboardPage env))
  else if eqb path (lit "/signin")
  then Some (of_served (Pages.serve Pages.SignInPage env))
  else if eqb path (lit "/signup")
  then Some (of_served (Pages.serve Pages.SignUpPage env))
  else None.

(** The middleware with the backend check, on the paths its matcher takes. *)
Definition gating_middleware (rt : Runtime) (request : NextRequest)
  : option Decision :=
  if GatingMiddleware.matcher (pathname request)
  then Some (of_response (GatingMiddleware.middleware rt request []).1)
  else None.

(** src/middleware.ts, on the paths its matcher takes. *)
Definition root_middleware (request : NextRequest) : option Decision :=
  if RootMiddleware.matcher (pathname request)
  then Some (of_response (RootMiddleware.middleware request []).1)
  else None.

(** The paths handed to [router.push] among some navigations. An
    assignment to [window.location.href] is not one of them: in this code
    base only the API service makes those. *)
Definition pushes (ns : list Nav) : list jsstring :=
  omap (λ n, match n with
             | router_push p => Some p
             | location_href _ => None
             end) ns.

(** The dashboard client, mounted on /dashboard: where its own redirect,
    the [router.push] in the catch clause of [fetchNotes], sends the
    browser while the notes are fetched on mount. *)
Definition dashboard_client (server : Http.Server)
  (w : World Dashboard.State) (path : jsstring) : option Decision :=
  if eqb path (lit "/dashboard") then
    let w' := (Dashboard.fetchNotes server w).2 in
    Some match last (pushes (drop (length (navigation w)) (navigation w'))) with
         | Some p => RouteTo p
         | None => Serve
         end
  else None.

(** The authentication status as the server helpers see it. *)
Definition server_authenticated (env : AuthServer.Env) : bool :=
  match (AuthServer.getServerAuth env []).1 with
  | Normal r => AuthServer.isAuthenticated r
  | Throw _ => false
  end.

(** The authentication status as the middleware sees it. *)
Definition edge_authenticated (rt : Runtime) (request : NextRequest) : bool :=
  match (GatingMiddleware.checkAuthentication rt request []).1 with
  | Normal b => b
  | Throw _ => false
  end.

(** The root-path rule for a middleware [mw]: a redirect to /dashboard
    when the request is authenticated and to /signin when it is not. *)
Definition conditional_root_redirect
  (mw : Runtime → NextRequest → Srv NextResponse) : Prop :=
  ∀ rt request, pathname request = lit "/" →
    (mw rt request []).1 =
    Normal (redirect (new_URL (if edge_authenticated rt request
                               then lit "/dashboard" else lit "/signin")
                        request)).

End Gating.

(* ===================================================================== *)
(** ** Concrete runs *)
(* ===================================================================== *)

(** Small concrete environments on which the statements below are run. *)
Module Sample.
Import Fetch AuthServer Edge.

Definition alice : User :=
  {| user_id := lit "u1"; user_email := lit "alice@example.com";
     user_name := lit "Alice"; user_isVerified := true;
     user_createdAt := lit "2024-01-01T00:00:00Z" |}.

Definition store_with_token : CookieStore :=
  {| cookie_get := λ k,
       if eqb k (lit "authToken")
       then Some {| name := lit "authToken"; value := lit "abc" |}
       else None;
     cookie_toString := lit "authToken=abc" |}.

Definition empty_store : CookieStore :=
  {| cookie_get := λ _, None; cookie_toString := lit "" |}.

(** A backend that knows the session [authToken=abc]. *)
Definition rt_session : Runtime :=
  {| NEXT_PUBLIC_API_URL := Some (lit "https://api.example.com");
     backend := λ rq,
       if includes (lit "authToken=abc") (cookie rq)
       then Responds {| status := 200; body := JsonData (Some alice) |}
       else Responds {| status := 401; body := JsonNoData |} |}.

(** A backend that cannot be reached. *)
Definition rt_down : Runtime :=
  {| NEXT_PUBLIC_API_URL := Some (lit "https://api.example.com");
     backend := λ _, Rejects |}.

Definition env_signed_in : Env :=
  {| runtime := rt_session; cookies_result := Some store_with_token |}.

Definition env_anonymous : Env :=
  {| runtime := rt_session; cookies_result := Some empty_store |}.

Definition env_down : Env :=
  {| runtime := rt_down; cookies_result := Some store_with_token |}.

Definition request_for (path : string) (cookies : option jsstring) : NextRequest :=
  {| pathname := lit path; origin := lit "https://notes.example.com";
     cookie_header := cookies |}.

Definition groceries : Note :=
  {| note_id := lit "n1"; note_title := lit "Groceries";
     note_content := lit "milk"; note_createdAt := lit "2024-01-02T00:00:00Z";
     note_updatedAt := lit "2024-01-02T00:00:00Z" |}.

Definition chores : Note :=
  {| note_id := lit "n2"; note_title := lit "Chores";
     note_content := lit ""; note_createdAt := lit "2024-01-03T00:00:00Z";
     note_updatedAt := lit "2024-01-03T00:00:00Z" |}.

(** A remote API that rejects every request with the given status and
    message. *)
Definition rejecting (st : Z) (msg : string) : Http.Server :=
  λ e _ _,
    Http.Rejected
      (Http.AxiosError
         (Some {| Http.error_status := st;
                  Http.error_data := Some (Some (lit msg)) |})).

Definition fulfilled {T : Type} (hs : gmap jsstring jsstring) (d : option T)
  : Http.Outcome T :=
  Http.Fulfilled
    {| Http.status := 200; Http.headers := hs;
       Http.response_data :=
         {| Http.success := true; Http.message := None; Http.data := d |} |}.

(** A remote API that accepts every request; OTP verification answers
    with the given Authorization header. *)
Definition accepting (authorization : string) : Http.Server :=
  λ e,
    match e return list Http.Request → Http.Request → Http.Outcome (Http.Payload e) with
    | Http.EpVerifyOTP =>
        λ _ _, fulfilled {[ lit "authorization" := lit authorization ]} None
    | Http.EpCreateNote =>
        λ _ _, fulfilled ∅ (Some {| Http.note := groceries |})
    | Http.EpNotes =>
        λ _ _, fulfilled ∅
                 (Some {| Http.notes := [groceries; chores];
                          Http.pagination :=
                            {| Http.currentPage := 1; Http.totalPages := 1;
                               Http.totalNotes := 2; Http.hasNext := false;
                               Http.hasPrev := false |} |})
    | _ => λ _ _, fulfilled ∅ None
    end.

(** A freshly loaded page with the given component state. *)
Definition world {S : Type} (s : S) (storage : gmap jsstring jsstring)
  : Browser.World S :=
  {| Browser.ui := s; Browser.localStorage := storage; Browser.sent := [];
     Browser.navigation := []; Browser.timers := [];
     Browser.defaultPrevented := false |}.

(** The dashboard with the create dialog open and a title typed in. *)
Definition dashboard (title : string) (ns : list Note) : Dashboard.State :=
  {| Dashboard.notes := ns; Dashboard.isDialogOpen := true;
     Dashboard.newNoteTitle := lit title;
     Dashboard.newNoteContent := lit "milk";
     Dashboard.isLoading := false; Dashboard.isCreating := false;
     Dashboard.error := None |}.

Definition signin_values : AuthForm.SignInValues :=
  {| AuthForm.email := lit "alice@example.com";
     AuthForm.otp := Some (lit "123456") |}.

Definition signup_values : Api.SignupData :=
  {| Api.name := lit "Alice"; Api.email := lit "alice@example.com";
     Api.dob := lit "1990-05-17"; Api.otp := Some (lit "123456") |}.

(** A form before and after the OTP was sent. *)
Definition form (sent_otp : bool) : AuthForm.State :=
  {| AuthForm.isLoading := false; AuthForm.error := None;
     AuthForm.otpSent := sent_otp |}.

End Sample.

(* ===================================================================== *)
(** * Properties *)
(* ===================================================================== *)

(** ** Strings *)

Module JsFacts.

(** A string that starts with [p] is [p] followed by the rest. *)
Lemma startsWith_inv (p s : jsstring) :
  startsWith p s = true → s = p ++ drop (length p) s.
Proof.
  revert s. induction p as [|c p IH]; intros s H; [reflexivity|].
  destruct s as [|d s]; [discriminate|].
  cbn in H. apply andb_true_iff in H as [Hc Hp].
  apply N.eqb_eq in Hc. subst d. cbn. f_equal. apply IH. exact Hp.
Qed.

Lemma startsWith_app (p t : jsstring) : startsWith p (p ++ t) = true.
Proof.
  induction p as [|c p IH]; [reflexivity|].
  cbn. rewrite N.eqb_refl. exact IH.
Qed.

End JsFacts.

(** ** The server auth check *)

Module AuthServerFacts.
Import Fetch AuthServer.

(** The runs of [getServerAuth], spelled out by cases on what the cookie
    store and the backend do. *)
Lemma getServerAuth_run (env : Env) (log : list Request) :
  getServerAuth env log =
  match cookies_result env with
  | None => (Normal unauthenticated, log)
  | Some store =>
      match cookie_get store (lit "authToken") with
      | None => (Normal unauthenticated, log)
      | Some _ =>
          let rq := profile_request (runtime env) (cookie_toString store) in
          match backend (runtime env) rq with
          | Rejects => (Normal unauthenticated, log ++ [rq])
          | Responds r =>
              if ok r then
                match body r with
                | JsonData u =>
                    (Normal {| user := u; isAuthenticated := true |}, log ++ [rq])
                | _ => (Normal unauthenticated, log ++ [rq])
                end
              else (Normal unauthenticated, log ++ [rq])
          end
      end
  end.
Proof.
  unfold getServerAuth, try_catch, bind, cookies, fetch, json, data_data_user.
  destruct (cookies_result env) as [store|]; [|reflexivity].
  cbn [throw ret].
  destruct (cookie_get store (lit "authToken")) as [tok|]; [|reflexivity].
  cbn zeta.
  destruct (backend (runtime env) _) as [|r]; [reflexivity|].
  destruct (ok r); cbn [negb]; [|reflexivity].
  destruct (body r); reflexivity.
Qed.

(** [getServerAuth] always completes normally. *)
Lemma getServerAuth_returns (env : Env) (log : list Request) :
  ∃ r log', getServerAuth env log = (Normal r, log').
Proof.
  rewrite getServerAuth_run.
  destruct (cookies_result env) as [store|]; [|eauto].
  destruct (cookie_get store (lit "authToken")) as [tok|]; [|eauto].
  cbn zeta.
  destruct (backend (runtime env) _) as [|resp]; [eauto|].
  destruct (ok resp); [|eauto].
  destruct (body resp); eauto.
Qed.

(** What [requireAuth] does after a given result of the auth check. *)
Lemma requireAuth_run (env : Env) (log log' : list Request) (r : AuthResult) :
  getServerAuth env log = (Normal r, log') →
  requireAuth env log =
  match isAuthenticated r, user r with
  | true, Some u => (Normal u, log')
  | _, _ => (Throw (NEXT_REDIRECT (lit "/signin")), log')
  end.
Proof.
  intros H. unfold requireAuth, bind. rewrite H.
  destruct (isAuthenticated r), (user r); reflexivity.
Qed.

(** What [redirectIfAuthenticated] does after a given result of the auth
    check. *)
Lemma redirectIfAuthenticated_run (env : Env) (log log' : list Request)
  (r : AuthResult) :
  getServerAuth env log = (Normal r, log') →
  redirectIfAuthenticated env log =
  if isAuthenticated r
  then (Throw (NEXT_REDIRECT (lit "/dashboard")), log')
  else (Normal tt, log').
Proof.
  intros H. unfold redirectIfAuthenticated, bind. rewrite H.
  destruct (isAuthenticated r); reflexivity.
Qed.

End AuthServerFacts.

Module AuthServerSpec.
Import Fetch AuthServer AuthServerFacts.

(** C9. [getServerAuth] is total and fails closed: every run completes
    normally with a result; with no authToken cookie the result is
    [{ user: null, isAuthenticated: false }] and no request is sent; when
    the profile request rejects or answers with a non-OK status the result
    is the same; and [isAuthenticated] is true only when the backend
    answered OK and [user] is the [data.user] of its body. *)
Theorem getServerAuth_total_fails_closed (env : Env) (log : list Request) :
  (∃ r log', getServerAuth env log = (Normal r, log'))
  ∧ (∀ store, cookies_result env = Some store →
       cookie_get store (lit "authToken") = None →
       getServerAuth env log = (Normal unauthenticated, log))
  ∧ (∀ store, cookies_result env = Some store →
       let rq := profile_request (runtime env) (cookie_toString store) in
       (backend (runtime env) rq = Rejects
        ∨ ∃ resp, backend (runtime env) rq = Responds resp ∧ ok resp = false) →
       (getServerAuth env log).1 = Normal unauthenticated)
  ∧ (∀ r log', getServerAuth env log = (Normal r, log') →
       isAuthenticated r = true →
       ∃ store resp,
         cookies_result env = Some store
         ∧ is_Some (cookie_get store (lit "authToken"))
         ∧ backend (runtime env)
             (profile_request (runtime env) (cookie_toString store))
           = Responds resp
         ∧ ok resp = true
         ∧ body resp = JsonData (user r)).
Proof.
  split; [apply getServerAuth_returns|].
  rewrite getServerAuth_run.
  split; [|split].
  - intros store Hs Hc. rewrite Hs, Hc. reflexivity.
  - intros store Hs rq Hb. rewrite Hs.
    destruct (cookie_get store (lit "authToken")) as [tok|]; [|reflexivity].
    cbn zeta. fold rq.
    destruct Hb as [Hb | (resp & Hb & Hok)]; rewrite Hb; [reflexivity|].
    rewrite Hok. reflexivity.
  - intros r log'.
    destruct (cookies_result env) as [store|];
      [|intros [= <- _]; discriminate].
    destruct (cookie_get store (lit "authToken")) as [tok|] eqn:Hc;
      [|intros [= <- _]; discriminate].
    cbn zeta.
    destruct (backend (runtime env) _) as [|resp] eqn:Hb;
      [intros [= <- _]; discriminate|].
    destruct (ok resp) eqn:Hok; [|intros [= <- _]; discriminate].
    destruct (body resp) as [| |u] eqn:Hbody;
      try (intros [= <- _]; discriminate).
    intros [= <- _] _. exists store, resp. rewrite Hc. cbn. eauto.
Qed.

(** A signed-in request is recognised, an anonymous one is turned away
    without a request, and so is any request while the backend is down. *)
Lemma getServerAuth_total_fails_closed_witness :
  getServerAuth Sample.env_anonymous [] = (Normal unauthenticated, [])
  ∧ (getServerAuth Sample.env_down []).1 = Normal unauthenticated
  ∧ ∃ resp, ok resp = true ∧ body resp = JsonData (Some Sample.alice).
Proof.
  destruct (getServerAuth_total_fails_closed Sample.env_anonymous [])
    as (_ & Habsent & _).
  destruct (getServerAuth_total_fails_closed Sample.env_down [])
    as (_ & _ & Hdown & _).
  destruct (getServerAuth_total_fails_closed Sample.env_signed_in [])
    as (_ & _ & _ & Hauth).
  split; [|split].
  - apply (Habsent Sample.empty_store); reflexivity.
  - apply (Hdown Sample.store_with_token); [reflexivity|].
    left. reflexivity.
  - destruct (Hauth {| user := Some Sample.alice; isAuthenticated := true |}
                [profile_request Sample.rt_session (lit "authToken=abc")])
      as (store & resp & _ & _ & _ & Hok & Hbody);
      [vm_compute; reflexivity | reflexivity |].
    exists resp. split; assumption.
Defined.

End AuthServerSpec.

(** ** The guarded pages *)

Module PagesSpec.
Import Fetch AuthServer AuthServerFacts Pages.

(** C7. The dashboard page renders only when the server auth check
    returned a user, and that user is the one handed to the dashboard
    client; when the check reports no authentication (or no user) the
    request is redirected to /signin. The sign-in and sign-up pages
    redirect an authenticated request to /dashboard, so they render no
    form for it. *)
Theorem pages_guarded (env : Env) :
  (∀ e, serve DashboardPage env = Rendered e →
     ∃ u log,
       e = DashboardClient u
       ∧ getServerAuth env [] =
           (Normal {| user := Some u; isAuthenticated := true |}, log))
  ∧ (∀ r log, getServerAuth env [] = (Normal r, log) →
       isAuthenticated r = false ∨ user r = None →
       serve DashboardPage env = Redirected (lit "/signin"))
  ∧ (∀ r log, getServerAuth env [] = (Normal r, log) →
       isAuthenticated r = true →
       serve SignInPage env = Redirected (lit "/dashboard")
       ∧ serve SignUpPage env = Redirected (lit "/dashboard")).
Proof.
  destruct (getServerAuth_returns env []) as (r0 & log0 & H0).
  pose proof (requireAuth_run env [] log0 r0 H0) as Hreq.
  pose proof (redirectIfAuthenticated_run env [] log0 r0 H0) as Hred.
  unfold serve, DashboardPage, SignInPage, SignUpPage, bind.
  rewrite Hreq, Hred.
  split; [|split].
  - intros e. destruct r0 as [[u|] [|]]; cbn; try discriminate.
    intros [= <-]. exists u, log0. split; [reflexivity|assumption].
  - intros r log. rewrite H0. intros [= <- <-].
    destruct r0 as [[u|] [|]]; cbn; intros [?|?];
      try discriminate; reflexivity.
  - intros r log. rewrite H0. intros [= <- <-] ->. split; reflexivity.
Qed.

(** The signed-in request gets the dashboard and is kept off the forms; the
    anonymous one is sent to /signin. *)
Lemma pages_guarded_witness :
  serve DashboardPage Sample.env_anonymous = Redirected (lit "/signin")
  ∧ serve SignInPage Sample.env_signed_in = Redirected (lit "/dashboard")
  ∧ serve SignUpPage Sample.env_signed_in = Redirected (lit "/dashboard")
  ∧ ∃ u, DashboardClient Sample.alice = DashboardClient u.
Proof.
  destruct (pages_guarded Sample.env_anonymous) as (_ & Hanon & _).
  destruct (pages_guarded Sample.env_signed_in) as (Hdash & _ & Hforms).
  split; [|split; [|split]].
  - apply (Hanon unauthenticated []); [reflexivity | left; reflexivity].
  - eapply Hforms; [vm_compute; reflexivity | reflexivity].
  - eapply Hforms; [vm_compute; reflexivity | reflexivity].
  - destruct (Hdash (DashboardClient Sample.alice)) as (u & _ & He & _);
      [vm_compute; reflexivity|].
    exists u. exact He.
Defined.

End PagesSpec.

(** ** The edge middlewares *)

Module EdgeFacts.
Import Fetch Edge Gating.

(** [checkAuthentication] sends one profile request and always returns. *)
Lemma checkAuthentication_run (rt : Runtime) (request : NextRequest)
  (log : list Request) :
  let rq := profile_request rt (or_else (cookie_header request) (lit "")) in
  GatingMiddleware.checkAuthentication rt request log =
  (Normal match backend rt rq with
          | Rejects => false
          | Responds r =>
              match body r with
              | JsonRejects => false
              | _ => if status r =? 401 then false
                     else ok r && (status r =? 200)
              end
          end,
   log ++ [rq]).
Proof.
  unfold GatingMiddleware.checkAuthentication, try_catch, bind, fetch, json.
  cbn zeta.
  destruct (backend rt _) as [|r]; [reflexivity|].
  destruct (body r); cbn [throw ret]; try reflexivity;
    destruct (status r =? 401); reflexivity.
Qed.

(** The middleware's decision once the check has answered [b]. *)
Lemma middleware_run (rt : Runtime) (request : NextRequest)
  (log : list Request) :
  ∃ log',
    GatingMiddleware.middleware rt request log =
    (Normal
       (let b := edge_authenticated rt request in
        let p := pathname request in
        if existsb (λ route, startsWith route p) GatingMiddleware.protectedRoutes
           && negb b
        then redirect (set_search (lit "redirect") p
                         (new_URL (lit "/signin") request))
        else if existsb (λ route, startsWith route p) GatingMiddleware.authRoutes
                && b
        then redirect (new_URL (lit "/dashboard") request)
        else if eqb p (lit "/")
        then if b then redirect (new_URL (lit "/dashboard") request)
             else redirect (new_URL (lit "/signin") request)
        else next),
     log').
Proof.
  unfold GatingMiddleware.middleware, edge_authenticated, bind.
  rewrite !checkAuthentication_run. cbn [fst]. cbn zeta.
  eexists.
  repeat match goal with
         | |- context [if ?c then _ else _] => destruct c
         end; cbn [ret]; reflexivity.
Qed.

End EdgeFacts.

Module EdgeSpec.
Import Fetch Edge Gating EdgeFacts.

(** C2, as stated, fails for src/middleware.ts: a request for the root
    path that carries a session the backend accepts is redirected to
    /signin, not to /dashboard. *)
Lemma root_middleware_ignores_authentication :
  ¬ conditional_root_redirect (λ _, RootMiddleware.middleware).
Proof.
  intros H.
  specialize (H Sample.rt_session
                (Sample.request_for "/" (Some (lit "authToken=abc")))
                eq_refl).
  vm_compute in H. discriminate H.
Qed.

(** C2, amended. A request for the root path is never served as it is:
    src/middleware.ts redirects it to /signin whatever the authentication
    status, without asking the backend; the middleware with the backend
    check redirects it to /dashboard when the check succeeds and to /signin
    when it does not. Both matchers take the root path. *)
Theorem root_path_always_redirected (rt : Runtime) (request : NextRequest)
  (log : list Request) :
  pathname request = lit "/" →
  RootMiddleware.middleware request log =
    (Normal (redirect (new_URL (lit "/signin") request)), log)
  ∧ root_middleware request = Some (RouteTo (lit "/signin"))
  ∧ (∃ log',
       GatingMiddleware.middleware rt request log =
       (Normal (redirect (new_URL (if edge_authenticated rt request
                                   then lit "/dashboard" else lit "/signin")
                            request)), log'))
  ∧ gating_middleware rt request =
      Some (RouteTo (if edge_authenticated rt request
                     then lit "/dashboard" else lit "/signin")).
Proof.
  intros Hp.
  assert (Hroot : ∀ l, RootMiddleware.middleware request l =
                       (Normal (redirect (new_URL (lit "/signin") request)), l)).
  { intros l. unfold RootMiddleware.middleware. rewrite Hp. reflexivity. }
  assert (Hgate : ∀ l, ∃ l',
             GatingMiddleware.middleware rt request l =
             (Normal (redirect (new_URL (if edge_authenticated rt request
                                         then lit "/dashboard"
                                         else lit "/signin") request)), l')).
  { intros l. destruct (middleware_run rt request l) as (l' & H).
    exists l'. rewrite H. rewrite Hp. cbn zeta.
    destruct (edge_authenticated rt request); reflexivity. }
  split; [apply Hroot|]. split; [|split; [apply Hgate|]].
  - unfold root_middleware. rewrite Hroot, Hp. reflexivity.
  - unfold gating_middleware. destruct (Hgate []) as (l' & ->).
    rewrite Hp. cbn.
    destruct (edge_authenticated rt request); reflexivity.
Qed.

(** The root request with an accepted session: /signin from
    src/middleware.ts, /dashboard from the middleware with the check. *)
Lemma root_path_always_redirected_witness :
  root_middleware (Sample.request_for "/" (Some (lit "authToken=abc")))
    = Some (RouteTo (lit "/signin"))
  ∧ gating_middleware Sample.rt_session
      (Sample.request_for "/" (Some (lit "authToken=abc")))
    = Some (RouteTo (lit "/dashboard")).
Proof.
  destruct (root_path_always_redirected Sample.rt_session
              (Sample.request_for "/" (Some (lit "authToken=abc"))) []
              eq_refl) as (_ & Hroot & _ & Hgate).
  split; [exact Hroot | exact Hgate].
Defined.

End EdgeSpec.

(** ** The API service *)

Module ApiFacts.
Import Http Browser Api.

Section Runs.
Context {S : Type} (server : Server).

(** One call on the axios instance: the request that goes out carries the
    header the interceptor derives from localStorage, and is logged. *)
Lemma axios_run (e : Endpoint) (m : Method) (u : jsstring) (b : Body)
  (w : World S) :
  axios server e m u b w =
  let config := bearer (localStorage w !! lit "authToken")
                  {| method := m; url := u; Authorization := None; body := b |} in
  match server e (sent w) config with
  | Fulfilled r => (Normal r, with_sent config w)
  | Rejected err => (Throw err, with_sent config w)
  end.
Proof.
  unfold axios, requestInterceptor, getItem, bind, get, ret, modify, throw.
  cbn zeta.
  destruct (server e _ _); reflexivity.
Qed.

(** The shape most methods have: one call, the body handed back, any
    rejection re-thrown as a plain [Error]. *)
Lemma plain_call_run (e : Endpoint) (m : Method) (u : jsstring) (b : Body)
  (fallback : jsstring) (w : World S) :
  try_catch (response <- axios server e m u b;; handleResponse response)
    (rethrow fallback) w =
  let config := bearer (localStorage w !! lit "authToken")
                  {| method := m; url := u; Authorization := None; body := b |} in
  match server e (sent w) config with
  | Fulfilled r => (Normal (response_data r), with_sent config w)
  | Rejected err =>
      (Throw (Error (if isAxiosError err
                     then or_else (response_data_message err) fallback
                     else fallback)),
       with_sent config w)
  end.
Proof.
  unfold try_catch, bind. rewrite axios_run. cbn zeta.
  destruct (server e _ _) as [r|err]; [reflexivity|].
  unfold rethrow. destruct (isAxiosError err); reflexivity.
Qed.

Lemma createNote_run (title content : jsstring) (w : World S) :
  createNote server title content w =
  let config := bearer (localStorage w !! lit "authToken")
                  {| method := POST; url := lit "/notes"; Authorization := None;
                     body := CreateNoteBody title content |} in
  match server EpCreateNote (sent w) config with
  | Fulfilled r => (Normal (response_data r), with_sent config w)
  | Rejected err =>
      (Throw (Error (if isAxiosError err
                     then or_else (response_data_message err)
                            (lit "Create note failed")
                     else lit "Create note failed")),
       with_sent config w)
  end.
Proof.
  exact (plain_call_run EpCreateNote POST (lit "/notes")
           (CreateNoteBody title content) (lit "Create note failed") w).
Qed.

Lemma deleteNote_run (id : jsstring) (w : World S) :
  deleteNote server id w =
  let config := bearer (localStorage w !! lit "authToken")
                  {| method := DELETE; url := lit "/notes/" ++ id;
                     Authorization := None; body := NoBody |} in
  match server EpDeleteNote (sent w) config with
  | Fulfilled r => (Normal (response_data r), with_sent config w)
  | Rejected err =>
      (Throw (Error (if isAxiosError err
                     then or_else (response_data_message err)
                            (lit "Delete note failed")
                     else lit "Delete note failed")),
       with_sent config w)
  end.
Proof.
  exact (plain_call_run EpDeleteNote DELETE (lit "/notes/" ++ id) NoBody
           (lit "Delete note failed") w).
Qed.

Lemma login_run (email : jsstring) (w : World S) :
  login server email w =
  let config := bearer (localStorage w !! lit "authToken")
                  {| method := POST; url := lit "/auth/login";
                     Authorization := None; body := LoginBody email |} in
  match server EpLogin (sent w) config with
  | Fulfilled r => (Normal (response_data r), with_sent config w)
  | Rejected err =>
      (Throw (Error (if isAxiosError err
                     then or_else (response_data_message err)
                            (lit "Login failed")
                     else lit "Login failed")),
       with_sent config w)
  end.
Proof.
  exact (plain_call_run EpLogin POST (lit "/auth/login") (LoginBody email)
           (lit "Login failed") w).
Qed.

Lemma getNotes_run (page limit : N) (search : option jsstring) (w : World S) :
  getNotes server page limit search w =
  let config :=
    bearer (localStorage w !! lit "authToken")
      {| method := GET; url := lit "/notes"; Authorization := None;
         body := NotesParams (toString page) (toString limit)
                   (match search with
                    | Some s => if truthy s then Some s else None
                    | None => None
                    end) |} in
  match server EpNotes (sent w) config with
  | Fulfilled r => (Normal (response_data r), with_sent config w)
  | Rejected err =>
      if isAxiosError err then
        (Throw (Error (or_else (response_data_message err)
                         (lit "Get notes failed"))),
         if bool_decide (response_status err = Some 401)
         then with_navigation (location_href (lit "/signin"))
                (with_localStorage (delete (lit "authToken"))
                   (with_sent config w))
         else with_sent config w)
      else (Throw (Error (lit "Get notes failed")), with_sent config w)
  end.
Proof.
  unfold getNotes, try_catch, bind. rewrite axios_run. cbn zeta.
  destruct (server EpNotes _ _) as [r|err]; [reflexivity|].
  destruct (isAxiosError err); [|reflexivity].
  destruct (bool_decide _); reflexivity.
Qed.

Lemma verifyOTP_run (email otp : jsstring) (w : World S) :
  verifyOTP server email otp w =
  let config := bearer (localStorage w !! lit "authToken")
                  {| method := POST; url := lit "/auth/verify-otp";
                     Authorization := None; body := VerifyOTPBody email otp |} in
  match server EpVerifyOTP (sent w) config with
  | Fulfilled r =>
      (Normal (response_data r),
       match headers r !! lit "authorization" with
       | Some h =>
           if truthy h && startsWith (lit "Bearer ") h
           then with_localStorage (insert (lit "authToken") (substring 7 h))
                  (with_sent config w)
           else with_sent config w
       | None => with_sent config w
       end)
  | Rejected err =>
      (Throw (Error (if isAxiosError err
                     then or_else (response_data_message err)
                            (lit "OTP verification failed")
                     else lit "OTP verification failed")),
       with_sent config w)
  end.
Proof.
  unfold verifyOTP, try_catch, bind. rewrite axios_run. cbn zeta.
  destruct (server EpVerifyOTP _ _) as [r|err].
  - destruct (headers r !! lit "authorization") as [h|]; [|reflexivity].
    destruct (truthy h && startsWith (lit "Bearer ") h); reflexivity.
  - unfold rethrow. destruct (isAxiosError err); reflexivity.
Qed.

Lemma signup_run (d : SignupData) (w : World S) :
  signup server d w =
  let config := bearer (localStorage w !! lit "authToken")
                  {| method := POST; url := lit "/auth/signup";
                     Authorization := None;
                     body := SignupBody (name d) (email d) (dob d) (otp d) |} in
  match server EpSignup (sent w) config with
  | Fulfilled r => (Normal (response_data r), with_sent config w)
  | Rejected err =>
      (Throw match err with
             | AxiosError (Some {| error_data := None |}) => TypeError
             | AxiosError _ =>
                 Error (or_else (response_data_message err) (lit "Signup failed"))
             | _ => Error (lit "Signup failed")
             end,
       with_sent config w)
  end.
Proof.
  unfold signup, try_catch, bind. rewrite axios_run. cbn zeta.
  destruct (server EpSignup _ _) as [r|err]; [reflexivity|].
  destruct err as [[[st [m|]]|]| |]; reflexivity.
Qed.

Lemma logout_run (w : World S) :
  logout server w =
  let config := bearer (localStorage w !! lit "authToken")
                  {| method := POST; url := lit "/auth/logout";
                     Authorization := None; body := NoBody |} in
  match server EpLogout (sent w) config with
  | Fulfilled r =>
      (Normal (response_data r),
       with_localStorage (delete (lit "authToken")) (with_sent config w))
  | Rejected err =>
      (Throw (Error (if isAxiosError err
                     then or_else (response_data_message err)
                            (lit "Logout failed")
                     else lit "Logout failed")),
       with_sent config w)
  end.
Proof.
  unfold logout, try_catch, bind. rewrite axios_run. cbn zeta.
  destruct (server EpLogout _ _) as [r|err]; [reflexivity|].
  unfold rethrow. destruct (isAxiosError err); reflexivity.
Qed.

End Runs.
End ApiFacts.

(** ** The dashboard handlers *)

Module DashboardFacts.
Import Http Browser Api ApiFacts Dashboard.

Section Runs.
Context (server : Server).

(** The request [handleCreateNote] sends from world [w]. *)
Lemma handleCreateNote_run (w : World State) :
  handleCreateNote server w =
  let title := newNoteTitle (ui w) in
  let content := newNoteContent (ui w) in
  if eqb (trim title) (lit "") then (Normal tt, with_defaultPrevented w)
  else
    let config := bearer (localStorage w !! lit "authToken")
                    {| method := POST; url := lit "/notes";
                       Authorization := None;
                       body := CreateNoteBody title content |} in
    let w1 := with_sent config
                (snd (setIsCreating true (with_defaultPrevented w))) in
    match server EpCreateNote (sent w) config with
    | Fulfilled r =>
        match success (response_data r), data (response_data r) with
        | true, Some d =>
            (Normal tt,
             snd (setIsCreating false
                    (snd (setIsDialogOpen false
                            (snd (setNewNoteContent (lit "")
                                    (snd (setNewNoteTitle (lit "")
                                            (snd (setNotes (λ prevNotes, note d :: prevNotes) w1))))))))))
        | _, _ => (Normal tt, snd (setIsCreating false w1))
        end
    | Rejected err => (Normal tt, snd (setIsCreating false w1))
    end.
Proof.
  unfold handleCreateNote, preventDefault, try_finally, try_catch, bind, get.
  unfold on_error, setNotes, setNewNoteTitle, setNewNoteContent,
    setIsDialogOpen, setIsCreating, setState, modify, ret.
  cbv beta iota zeta delta [snd].
  change (ui (with_defaultPrevented w)) with (ui w).
  destruct (eqb (trim (newNoteTitle (ui w))) (lit "")); [reflexivity|].
  rewrite createNote_run. cbv beta iota zeta.
  cbn [sent localStorage with_ui with_defaultPrevented].
  destruct (server EpCreateNote _ _) as [[st hs [[|] ms [d|]]]|err];
    reflexivity.
Qed.

Lemma fetchNotes_run (w : World State) :
  fetchNotes server w =
  let config := bearer (localStorage w !! lit "authToken")
                  {| method := GET; url := lit "/notes"; Authorization := None;
                     body := NotesParams (toString 1) (toString 10) None |} in
  let w1 := with_sent config w in
  match server EpNotes (sent w) config with
  | Fulfilled r =>
      match success (response_data r), data (response_data r) with
      | true, Some d =>
          (Normal tt,
           snd (setIsLoading false (snd (setNotes (λ _, Http.notes d) w1))))
      | _, _ => (Normal tt, snd (setIsLoading false w1))
      end
  | Rejected err =>
      (Normal tt,
       snd (setIsLoading false
              (if isAxiosError err
                  && bool_decide (response_status err = Some 401)
               then with_navigation (location_href (lit "/signin"))
                      (with_localStorage (delete (lit "authToken")) w1)
               else w1)))
  end.
Proof.
  unfold fetchNotes, try_finally, try_catch, bind.
  rewrite getNotes_run.
  unfold on_error, setNotes, setIsLoading, setState, modify, ret.
  cbv beta iota zeta delta [snd].
  destruct (server EpNotes _ _) as [[st hs [[|] ms [d|]]]|err];
    try reflexivity.
  destruct (isAxiosError err); [|reflexivity].
  destruct (bool_decide _); reflexivity.
Qed.

Lemma handleDeleteNote_run (id : jsstring) (w : World State) :
  handleDeleteNote server id w =
  let config := bearer (localStorage w !! lit "authToken")
                  {| method := DELETE; url := lit "/notes/" ++ id;
                     Authorization := None; body := NoBody |} in
  let w1 := with_sent config w in
  match server EpDeleteNote (sent w) config with
  | Fulfilled r =>
      (Normal tt,
       snd (setNotes (λ prevNotes, filter (λ n, note_id n ≠ id) prevNotes) w1))
  | Rejected err => (Normal tt, w1)
  end.
Proof.
  unfold handleDeleteNote, try_catch, bind.
  rewrite deleteNote_run.
  unfold on_error, setNotes, setState, modify, ret.
  cbv beta iota zeta delta [snd].
  destruct (server EpDeleteNote _ _) as [r|err]; reflexivity.
Qed.

End Runs.
End DashboardFacts.

Module DashboardSpec.
Import Http Browser Api ApiFacts Dashboard DashboardFacts.

(** The code's filter and the spec's wording of a deletion agree. *)
Lemma filter_remove_by_id (id : jsstring) (l : list Note) :
  filter (λ n, note_id n ≠ id) l = remove_by_id id l.
Proof.
  induction l as [|n rest IH]; [reflexivity|].
  cbn [remove_by_id]. unfold eqb.
  destruct (decide (note_id n = id)) as [Heq|Hne].
  - rewrite bool_decide_eq_true_2 by exact Heq.
    rewrite filter_cons_False by (intros H; apply H; exact Heq). exact IH.
  - rewrite bool_decide_eq_false_2 by exact Hne.
    rewrite filter_cons_True by exact Hne. f_equal. exact IH.
Qed.

(** C8. A create-note submission whose title is blank after trimming
    returns without sending any request: the notes list, the dialog flag
    and the two inputs are as before (indeed nothing changes except that
    the event's default action is prevented). *)
Theorem blank_title_is_not_submitted (server : Server) (w : World State) :
  trim (newNoteTitle (ui w)) = lit "" →
  ∃ w', handleCreateNote server w = (Normal tt, w')
        ∧ w' = with_defaultPrevented w
        ∧ sent w' = sent w
        ∧ notes (ui w') = notes (ui w)
        ∧ isDialogOpen (ui w') = isDialogOpen (ui w)
        ∧ newNoteTitle (ui w') = newNoteTitle (ui w)
        ∧ newNoteContent (ui w') = newNoteContent (ui w).
Proof.
  intros Hblank. exists (with_defaultPrevented w).
  rewrite handleCreateNote_run. cbn zeta. rewrite Hblank.
  repeat split; reflexivity.
Qed.

(** A title of two blanks is not submitted. *)
Lemma blank_title_is_not_submitted_witness :
  ∃ w', handleCreateNote (Sample.accepting "Bearer tok123")
          (Sample.world (Sample.dashboard "  " [Sample.chores]) ∅)
        = (Normal tt, w')
        ∧ sent w' = []
        ∧ notes (ui w') = [Sample.chores].
Proof.
  destruct (blank_title_is_not_submitted (Sample.accepting "Bearer tok123")
              (Sample.world (Sample.dashboard "  " [Sample.chores]) ∅)
              eq_refl)
    as (w' & Hrun & _ & Hsent & Hnotes & _).
  exists w'. split; [exact Hrun|]. split; [exact Hsent | exact Hnotes].
Defined.

(** C10. After a successful [createNote] call (the response has
    [success] and [data]) the notes list is the returned note in front of
    the previous list. After a [deleteNote(id)] call that resolves, the
    notes list is the previous list without the notes whose id is [id]: the
    notes that remain are exactly the others, unchanged and in their
    original order. *)
Theorem notes_list_tracks_mutations (server : Server) (w : World State) :
  (∀ r d,
     trim (newNoteTitle (ui w)) ≠ lit "" →
     server EpCreateNote (sent w)
       (bearer (localStorage w !! lit "authToken")
          {| method := POST; url := lit "/notes"; Authorization := None;
             body := CreateNoteBody (newNoteTitle (ui w))
                       (newNoteContent (ui w)) |})
     = Fulfilled r →
     success (response_data r) = true →
     data (response_data r) = Some d →
     notes (ui (handleCreateNote server w).2) = note d :: notes (ui w))
  ∧ (∀ id r,
       server EpDeleteNote (sent w)
         (bearer (localStorage w !! lit "authToken")
            {| method := DELETE; url := lit "/notes/" ++ id;
               Authorization := None; body := NoBody |})
       = Fulfilled r →
       let after := notes (ui (handleDeleteNote server id w).2) in
       after = remove_by_id id (notes (ui w))
       ∧ (∀ n, n ∈ after ↔ n ∈ notes (ui w) ∧ note_id n ≠ id)
       ∧ sublist after (notes (ui w))).
Proof.
  split.
  - intros r d Htitle Hcall Hsucc Hdata.
    rewrite handleCreateNote_run. cbn zeta.
    unfold eqb. rewrite bool_decide_eq_false_2 by exact Htitle.
    rewrite Hcall.
    destruct r as [st hs [su ms da]]; cbn in Hsucc, Hdata; subst su da.
    reflexivity.
  - intros id r Hcall after. subst after.
    rewrite handleDeleteNote_run. cbn zeta. rewrite Hcall.
    cbn [snd setNotes setState modify with_ui with_sent ui notes].
    split; [apply filter_remove_by_id|]. split.
    + intros n. rewrite list_elem_of_filter. tauto.
    + apply sublist_filter.
Qed.

(** Creating on top of one note, and deleting one of two. *)
Lemma notes_list_tracks_mutations_witness :
  notes (ui (handleCreateNote (Sample.accepting "Bearer tok123")
               (Sample.world (Sample.dashboard "Groceries" [Sample.chores]) ∅)).2)
    = [Sample.groceries; Sample.chores]
  ∧ notes (ui (handleDeleteNote (Sample.accepting "Bearer tok123") (lit "n1")
                 (Sample.world
                    (Sample.dashboard "" [Sample.groceries; Sample.chores]) ∅)).2)
    = [Sample.chores].
Proof.
  split.
  - destruct (notes_list_tracks_mutations (Sample.accepting "Bearer tok123")
                (Sample.world (Sample.dashboard "Groceries" [Sample.chores]) ∅))
      as (Hcreate & _).
    refine (Hcreate _ {| note := Sample.groceries |} _ eq_refl eq_refl eq_refl).
    vm_compute. discriminate.
  - destruct (notes_list_tracks_mutations (Sample.accepting "Bearer tok123")
                (Sample.world
                   (Sample.dashboard "" [Sample.groceries; Sample.chores]) ∅))
      as (_ & Hdelete).
    destruct (Hdelete (lit "n1") _ eq_refl) as (Heq & _).
    rewrite Heq. vm_compute. reflexivity.
Defined.

(** What the catch clause of the handlers is written to do, had an axios
    error reached it: a 401 pushes /signin, any other axios error shows
    the server's message. *)
Lemma on_error_intent (fallback msg : jsstring) (st : Z) (w : World State) :
  on_error fallback
    (AxiosError (Some {| error_status := st; error_data := Some (Some msg) |})) w
  = if bool_decide (st = 401)
    then (Normal tt, with_navigation (router_push (lit "/signin")) w)
    else setError (Some (or_else (Some msg) fallback)) w.
Proof.
  unfold on_error, response_status, response. cbn [isAxiosError fmap option_fmap option_map error_status].
  destruct (decide (st = 401)) as [->|Hne].
  - reflexivity.
  - rewrite !bool_decide_eq_false_2; [reflexivity | exact Hne | congruence].
Qed.

(** The general fact behind the failing inputs below. Whatever the remote
    API answers, no notes handler
    ever shows an error message, and creating or deleting a note never
    navigates: the service re-throws every axios error as a plain [Error],
    so the [isAxiosError] branch of the handlers is never taken. After a
    401 on the notes fetch the browser does go to /signin, but through the
    service's [window.location.href], not through the handler. *)
Theorem notes_errors_do_not_reach_the_handlers (server : Server)
  (id : jsstring) (w : World State) :
  error (ui (fetchNotes server w).2) = error (ui w)
  ∧ error (ui (handleCreateNote server w).2) = error (ui w)
  ∧ error (ui (handleDeleteNote server id w).2) = error (ui w)
  ∧ navigation (handleCreateNote server w).2 = navigation w
  ∧ navigation (handleDeleteNote server id w).2 = navigation w
  ∧ (∀ n, n ∈ navigation (fetchNotes server w).2 →
          n ∈ navigation w ∨ n = location_href (lit "/signin")).
Proof.
  rewrite fetchNotes_run, handleCreateNote_run, handleDeleteNote_run.
  cbn zeta.
  repeat split.
  - destruct (server EpNotes _ _) as [[st hs [[|] ms [d|]]]|err];
      try reflexivity.
    destruct (isAxiosError err && _); reflexivity.
  - destruct (eqb _ _); [reflexivity|].
    destruct (server EpCreateNote _ _) as [[st hs [[|] ms [d|]]]|err];
      reflexivity.
  - destruct (server EpDeleteNote _ _) as [r|err]; reflexivity.
  - destruct (eqb _ _); [reflexivity|].
    destruct (server EpCreateNote _ _) as [[st hs [[|] ms [d|]]]|err];
      reflexivity.
  - destruct (server EpDeleteNote _ _) as [r|err]; reflexivity.
  - intros n.
    destruct (server EpNotes _ _) as [[st hs [[|] ms [d|]]]|err];
      try (cbn; tauto).
    destruct (isAxiosError err && _); cbn; [|tauto].
    rewrite elem_of_app, list_elem_of_singleton. tauto.
Qed.

(** C4, the code at its failing inputs. With a token stored and a note
    title typed in: a 401 on create and on delete leaves the browser where
    it is (no redirect to /signin), and a 500 that carries a message shows
    no error text on fetch, create or delete. Only the 401 on the notes
    fetch ends on /signin, through the service's [window.location.href]. *)
Example notes_errors_on_samples :
  let w := Sample.world (Sample.dashboard "Groceries" [Sample.chores])
             {[ lit "authToken" := lit "tok123" ]} in
  let unauthorized := Sample.rejecting 401 "Unauthorized" in
  let broken := Sample.rejecting 500 "Database unavailable" in
  (handleCreateNote unauthorized w).1 = Normal tt
  ∧ navigation (handleCreateNote unauthorized w).2 = []
  ∧ navigation (handleDeleteNote unauthorized (lit "n2") w).2 = []
  ∧ error (ui (fetchNotes broken w).2) = None
  ∧ error (ui (handleCreateNote broken w).2) = None
  ∧ error (ui (handleDeleteNote broken (lit "n2") w).2) = None
  ∧ navigation (fetchNotes unauthorized w).2 = [location_href (lit "/signin")].
Proof. vm_compute. repeat split; reflexivity. Qed.

End DashboardSpec.

(** ** The three gates side by side *)

Module GatingSpec.
Import Fetch Edge Browser Gating.
Import AuthServerFacts EdgeFacts DashboardFacts.

Lemma served_of_auth (env : AuthServer.Env) :
  Pages.serve Pages.DashboardPage env =
    (if server_authenticated env
     then match (AuthServer.getServerAuth env []).1 with
          | Normal {| AuthServer.user := Some u |} =>
              Pages.Rendered (Pages.DashboardClient u)
          | _ => Pages.Redirected (lit "/signin")
          end
     else Pages.Redirected (lit "/signin"))
  ∧ Pages.serve Pages.SignInPage env =
    (if server_authenticated env
     then Pages.Redirected (lit "/dashboard")
     else Pages.Rendered Pages.SignInClient)
  ∧ Pages.serve Pages.SignUpPage env =
    (if server_authenticated env
     then Pages.Redirected (lit "/dashboard")
     else Pages.Rendered Pages.SignUpClient).
Proof.
  destruct (getServerAuth_returns env []) as (r & log & H).
  unfold Pages.serve, Pages.DashboardPage, Pages.SignInPage, Pages.SignUpPage,
    server_authenticated, bind.
  rewrite (requireAuth_run env [] log r H),
    (redirectIfAuthenticated_run env [] log r H), H.
  destruct r as [[u|] [|]]; cbn; repeat split; reflexivity.
Qed.

(** The part of the agreement that holds: the server helper and the
    middleware with the backend check route alike when their checks agree.
    An unauthenticated request for /dashboard goes to /signin from both, an
    authenticated request for /signin or /signup goes to /dashboard from
    both; src/middleware.ts handles none of these paths. *)
Lemma server_and_edge_gates_agree
  (env : AuthServer.Env) (rt : Runtime) (request : NextRequest) :
  (pathname request = lit "/dashboard" →
   server_authenticated env = false →
   edge_authenticated rt request = false →
   server_helpers env (pathname request) = Some (RouteTo (lit "/signin"))
   ∧ gating_middleware rt request = Some (RouteTo (lit "/signin"))
   ∧ root_middleware request = None)
  ∧ (pathname request = lit "/signin" ∨ pathname request = lit "/signup" →
     server_authenticated env = true →
     edge_authenticated rt request = true →
     server_helpers env (pathname request) = Some (RouteTo (lit "/dashboard"))
     ∧ gating_middleware rt request = Some (RouteTo (lit "/dashboard"))
     ∧ root_middleware request = None).
Proof.
  destruct (served_of_auth env) as (Hdash & Hin & Hup).
  destruct (middleware_run rt request []) as (log' & Hmw).
  split.
  - intros Hp Hsrv Hedge.
    unfold server_helpers, gating_middleware, root_middleware.
    rewrite Hmw, Hdash, Hsrv, Hedge, Hp.
    repeat split; reflexivity.
  - intros Hp Hsrv Hedge.
    unfold server_helpers, gating_middleware, root_middleware.
    rewrite Hmw, Hin, Hup, Hsrv, Hedge.
    destruct Hp as [-> | ->]; repeat split; reflexivity.
Qed.

(** The dashboard client's own gate never routes: whatever the remote API
    answers to the notes request, [fetchNotes] makes no [router.push]. The
    401 branch of its catch clause needs an axios error, and
    [ApiService.getNotes] only ever throws a plain [Error]. *)
Lemma dashboard_client_never_routes (server : Http.Server)
  (w : World Dashboard.State) :
  dashboard_client server w (lit "/dashboard") = Some Serve.
Proof.
  unfold dashboard_client.
  change (eqb (lit "/dashboard") (lit "/dashboard")) with true. cbv iota.
  rewrite fetchNotes_run. cbn zeta.
  destruct (server Http.EpNotes _ _) as [[st hs [[|] ms [d|]]]|err];
    [| | | |destruct (Http.isAxiosError err && _)];
    cbn [snd Dashboard.setIsLoading Dashboard.setNotes setState modify with_ui
         with_navigation with_localStorage with_sent navigation];
    rewrite ?drop_app_length, ?drop_all; reflexivity.
Qed.


End GatingSpec.

(** ** The sign-in and sign-up forms *)

Module AuthFormFacts.
Import Http Browser Api ApiFacts AuthForm.

(** Unfolds a submit handler down to the calls on the service. *)
Ltac unfold_submit :=
  unfold SignInClient.onSubmit, SignInPageClient.onSubmit,
    SignUpClient.onSubmit, try_finally, try_catch, bind, get;
  unfold on_error, setIsLoading, setError, setOtpSent, setTimeout, push,
    setState, modify, ret;
  cbv beta iota zeta delta [snd];
  cbn [ui with_ui otpSent].

(** Firing the timers runs the callback that was set last, last. *)
Lemma fire_timers_last {S : Type} (w : World S) (ts : list (Z * Callback))
  (delay : Z) (path : jsstring) :
  timers w = ts ++ [(delay, push_later path)] →
  last (navigation (fire_timers w)) = Some (router_push path).
Proof.
  intros Ht. unfold fire_timers. rewrite Ht, foldl_app. cbn [foldl].
  unfold run_callback, push, modify. cbn [snd with_navigation navigation].
  apply last_snoc.
Qed.

Section Phases.
Context (server : Server).

Lemma signin_client_send (values : SignInValues) (w : World State) :
  otpSent (ui w) = false →
  let rq := outgoing w POST (lit "/auth/login")
              (LoginBody (AuthForm.email values)) in
  let w' := (SignInClient.onSubmit server values w).2 in
  sent w' = sent w ++ [rq]
  ∧ (∀ r, server EpLogin (sent w) rq = Fulfilled r →
          success (response_data r) = true →
          otpSent (ui w') = true
          ∧ navigation w' = navigation w ∧ timers w' = timers w).
Proof.
  intros Hphase rq w'. subst rq w'. unfold outgoing.
  unfold_submit. rewrite Hphase. cbn [negb].
  rewrite login_run. cbn zeta. cbn [sent localStorage with_ui].
  destruct (server EpLogin _ _) as [[st hs [[|] ms da]]|err] eqn:Hcall;
    (split; [reflexivity|]); intros r [= <-]; cbn; try discriminate; auto.
Qed.

Lemma signin_page_send (values : SignInValues) (w : World State) :
  otpSent (ui w) = false →
  let rq := outgoing w POST (lit "/auth/login")
              (LoginBody (AuthForm.email values)) in
  let w' := (SignInPageClient.onSubmit server values w).2 in
  sent w' = sent w ++ [rq]
  ∧ (∀ r, server EpLogin (sent w) rq = Fulfilled r →
          success (response_data r) = true →
          otpSent (ui w') = true
          ∧ navigation w' = navigation w ∧ timers w' = timers w).
Proof.
  intros Hphase rq w'. subst rq w'. unfold outgoing.
  unfold_submit. rewrite Hphase. cbn [negb].
  rewrite login_run. cbn zeta. cbn [sent localStorage with_ui].
  destruct (server EpLogin _ _) as [[st hs [[|] ms da]]|err] eqn:Hcall;
    (split; [reflexivity|]); intros r [= <-]; cbn; try discriminate; auto.
Qed.

Lemma signup_client_send (values : SignupData) (w : World State) :
  otpSent (ui w) = false →
  let rq := outgoing w POST (lit "/auth/signup")
              (SignupBody (name values) (Api.email values) (dob values)
                 (Api.otp values)) in
  let w' := (SignUpClient.onSubmit server values w).2 in
  sent w' = sent w ++ [rq]
  ∧ (∀ r, server EpSignup (sent w) rq = Fulfilled r →
          success (response_data r) = true →
          otpSent (ui w') = true
          ∧ navigation w' = navigation w ∧ timers w' = timers w).
Proof.
  intros Hphase rq w'. subst rq w'. unfold outgoing.
  unfold_submit. rewrite Hphase. cbn [negb].
  rewrite signup_run. cbn zeta. cbn [sent localStorage with_ui].
  destruct (server EpSignup _ _)
    as [[st hs [[|] ms da]]|[[[st' [m|]]|]| |]] eqn:Hcall;
    (split; [reflexivity|]); intros r [= <-]; cbn; try discriminate; auto.
Qed.

Ltac verify_cases :=
  match goal with
  | |- context [server EpVerifyOTP ?l ?rq] =>
      destruct (server EpVerifyOTP l rq) as [[st hs [[|] ms da]]|err] eqn:Hcall
  end;
  cbn [headers response_data success];
  try match goal with
      | |- context [?hs !! lit "authorization"] =>
          destruct (hs !! lit "authorization") as [h|];
          [destruct (truthy h && startsWith (lit "Bearer ") h)|]
      end.

Lemma signin_client_verify (values : SignInValues) (w : World State) :
  otpSent (ui w) = true →
  let rq := outgoing w POST (lit "/auth/verify-otp")
              (VerifyOTPBody (AuthForm.email values)
                 (or_else (AuthForm.otp values) (lit ""))) in
  let w' := (SignInClient.onSubmit server values w).2 in
  sent w' = sent w ++ [rq]
  ∧ (∀ r, server EpVerifyOTP (sent w) rq = Fulfilled r →
          success (response_data r) = true →
          navigation w' = navigation w
          ∧ timers w' = timers w ++ [(100, push_later (lit "/dashboard"))]
          ∧ last (navigation (fire_timers w')) =
              Some (router_push (lit "/dashboard"))).
Proof.
  intros Hphase rq w'. subst rq w'. unfold outgoing.
  unfold_submit. rewrite Hphase. cbn [negb].
  rewrite verifyOTP_run. cbn zeta. cbn [sent localStorage with_ui].
  verify_cases; (split; [reflexivity|]); intros r [= <-]; cbn [success response_data];
    try discriminate; intros _;
    (split; [reflexivity|]); (split; [reflexivity|]);
    eapply fire_timers_last; reflexivity.
Qed.

Lemma signup_client_verify (values : SignupData) (w : World State) :
  otpSent (ui w) = true →
  let rq := outgoing w POST (lit "/auth/verify-otp")
              (VerifyOTPBody (Api.email values)
                 (or_else (Api.otp values) (lit ""))) in
  let w' := (SignUpClient.onSubmit server values w).2 in
  sent w' = sent w ++ [rq]
  ∧ (∀ r, server EpVerifyOTP (sent w) rq = Fulfilled r →
          success (response_data r) = true →
          navigation w' = navigation w
          ∧ timers w' = timers w ++ [(100, push_later (lit "/dashboard"))]
          ∧ last (navigation (fire_timers w')) =
              Some (router_push (lit "/dashboard"))).
Proof.
  intros Hphase rq w'. subst rq w'. unfold outgoing.
  unfold_submit. rewrite Hphase. cbn [negb].
  rewrite verifyOTP_run. cbn zeta. cbn [sent localStorage with_ui].
  verify_cases; (split; [reflexivity|]); intros r [= <-]; cbn [success response_data];
    try discriminate; intros _;
    (split; [reflexivity|]); (split; [reflexivity|]);
    eapply fire_timers_last; reflexivity.
Qed.

Lemma signin_page_verify (values : SignInValues) (w : World State) :
  otpSent (ui w) = true →
  let rq := outgoing w POST (lit "/auth/verify-otp")
              (VerifyOTPBody (AuthForm.email values)
                 (or_else (AuthForm.otp values) (lit ""))) in
  let w' := (SignInPageClient.onSubmit server values w).2 in
  sent w' = sent w ++ [rq]
  ∧ (∀ r, server EpVerifyOTP (sent w) rq = Fulfilled r →
          success (response_data r) = true →
          navigation w' = navigation w ++ [router_push (lit "/dashboard")]).
Proof.
  intros Hphase rq w'. subst rq w'. unfold outgoing.
  unfold_submit. rewrite Hphase. cbn [negb].
  rewrite verifyOTP_run. cbn zeta. cbn [sent localStorage with_ui].
  verify_cases; (split; [reflexivity|]); intros r [= <-]; cbn [success response_data];
    try discriminate; intros _; reflexivity.
Qed.

End Phases.
End AuthFormFacts.

Module AuthFormSpec.
Import Http Browser Api AuthForm AuthFormFacts.

(** C3. Sign-in and sign-up run in two phases. A submission made before
    the OTP was sent posts the entered email to the login endpoint (for
    sign-up: name, email and date of birth to the signup endpoint, with the
    form's OTP field along), and on a response with [success] the form is
    in the OTP-sent state with no navigation made or scheduled. A
    submission made after the OTP was sent posts the email and the entered
    OTP to the verify-OTP endpoint, and on a response with [success] the
    browser is taken to /dashboard: at once on the earlier sign-in page,
    by a timer of 100 ms set for it on the two client components. *)
Theorem otp_flow_has_two_phases (server : Server) (w : World State)
  (values : SignInValues) (form : SignupData) :
  (otpSent (ui w) = false →
   let login_rq := outgoing w POST (lit "/auth/login")
                     (LoginBody (AuthForm.email values)) in
   let signup_rq := outgoing w POST (lit "/auth/signup")
                      (SignupBody (name form) (Api.email form) (dob form)
                         (Api.otp form)) in
   let w1 := (SignInClient.onSubmit server values w).2 in
   let w2 := (SignInPageClient.onSubmit server values w).2 in
   let w3 := (SignUpClient.onSubmit server form w).2 in
   sent w1 = sent w ++ [login_rq]
   ∧ sent w2 = sent w ++ [login_rq]
   ∧ sent w3 = sent w ++ [signup_rq]
   ∧ (∀ r, server EpLogin (sent w) login_rq = Fulfilled r →
           success (response_data r) = true →
           (otpSent (ui w1) = true
            ∧ navigation w1 = navigation w ∧ timers w1 = timers w)
           ∧ (otpSent (ui w2) = true
              ∧ navigation w2 = navigation w ∧ timers w2 = timers w))
   ∧ (∀ r, server EpSignup (sent w) signup_rq = Fulfilled r →
           success (response_data r) = true →
           otpSent (ui w3) = true
           ∧ navigation w3 = navigation w ∧ timers w3 = timers w))
  ∧ (otpSent (ui w) = true →
     let verify_in := outgoing w POST (lit "/auth/verify-otp")
                        (VerifyOTPBody (AuthForm.email values)
                           (or_else (AuthForm.otp values) (lit ""))) in
     let verify_up := outgoing w POST (lit "/auth/verify-otp")
                        (VerifyOTPBody (Api.email form)
                           (or_else (Api.otp form) (lit ""))) in
     let w1 := (SignInClient.onSubmit server values w).2 in
     let w2 := (SignInPageClient.onSubmit server values w).2 in
     let w3 := (SignUpClient.onSubmit server form w).2 in
     sent w1 = sent w ++ [verify_in]
     ∧ sent w2 = sent w ++ [verify_in]
     ∧ sent w3 = sent w ++ [verify_up]
     ∧ (∀ r, server EpVerifyOTP (sent w) verify_in = Fulfilled r →
             success (response_data r) = true →
             last (navigation (fire_timers w1)) =
               Some (router_push (lit "/dashboard"))
             ∧ navigation w2 = navigation w ++ [router_push (lit "/dashboard")])
     ∧ (∀ r, server EpVerifyOTP (sent w) verify_up = Fulfilled r →
             success (response_data r) = true →
             last (navigation (fire_timers w3)) =
               Some (router_push (lit "/dashboard")))).
Proof.
  split; intros Hphase; cbn zeta.
  - destruct (signin_client_send server values w Hphase) as (Hs1 & Hr1).
    destruct (signin_page_send server values w Hphase) as (Hs2 & Hr2).
    destruct (signup_client_send server form w Hphase) as (Hs3 & Hr3).
    repeat split; try assumption;
      solve [ eapply Hr1; eassumption | eapply Hr2; eassumption
            | eapply Hr3; eassumption ].
  - destruct (signin_client_verify server values w Hphase) as (Hs1 & Hr1).
    destruct (signin_page_verify server values w Hphase) as (Hs2 & Hr2).
    destruct (signup_client_verify server form w Hphase) as (Hs3 & Hr3).
    repeat split; try assumption;
      solve [ eapply Hr1; eassumption | eapply Hr2; eassumption
            | eapply Hr3; eassumption ].
Qed.

(** Alice signs in: the first submission asks for an OTP and stays, the
    second verifies it and lands on /dashboard. *)
Lemma otp_flow_has_two_phases_witness :
  let server := Sample.accepting "Bearer tok123" in
  let before := Sample.world (Sample.form false) ∅ in
  let after := Sample.world (Sample.form true) ∅ in
  (otpSent (ui (SignInClient.onSubmit server Sample.signin_values before).2) = true
   ∧ navigation (SignInClient.onSubmit server Sample.signin_values before).2 = [])
  ∧ last (navigation
            (fire_timers (SignInClient.onSubmit server Sample.signin_values after).2))
    = Some (router_push (lit "/dashboard")).
Proof.
  cbn zeta. split.
  - destruct (otp_flow_has_two_phases (Sample.accepting "Bearer tok123")
                (Sample.world (Sample.form false) ∅)
                Sample.signin_values Sample.signup_values) as (Hsend & _).
    destruct (Hsend eq_refl) as (_ & _ & _ & Hlogin & _).
    destruct (Hlogin _ eq_refl eq_refl) as ((Hotp & Hnav & _) & _).
    split; [exact Hotp | exact Hnav].
  - destruct (otp_flow_has_two_phases (Sample.accepting "Bearer tok123")
                (Sample.world (Sample.form true) ∅)
                Sample.signin_values Sample.signup_values) as (_ & Hverify).
    destruct (Hverify eq_refl) as (_ & _ & _ & Hin & _).
    destruct (Hin _ eq_refl eq_refl) as (Hnav & _).
    exact Hnav.
Defined.

End AuthFormSpec.

(** ** Entities *)

Module DeclSpec.
Import Decl Shape.

(** C5, as stated, fails: the [User] the API service exports has a sixth
    field, [dob]. *)
Lemma api_User_has_dob :
  ¬ (Forall (λ i, fields i = spec_User_fields)
       [auth_server_User; dashboard_client_User; api_User]
     ∧ fields api_Note = spec_Note_fields).
Proof.
  intros [H _]. rewrite !Forall_cons in H.
  destruct H as (_ & _ & H & _). discriminate H.
Qed.

(** Reads an object off the interface it has. *)
Ltac object_of_shape o H :=
  unfold api_Note, auth_server_User, dashboard_client_User, api_User in H;
  repeat (destruct o as [|[? ?] o]; [discriminate H|]);
  destruct o; [|discriminate H];
  repeat match goal with
         | v : JsValue |- _ => destruct v
         end;
  cbn in H; simplify_eq.

(** C5, amended. [Note] has exactly the fields id, title, content,
    createdAt and updatedAt. The [User] of the server auth helper and the
    [User] of the dashboard client have exactly the fields id, email, name,
    isVerified and createdAt; the [User] the API service exports has these
    and, between name and isVerified, a string field dob. These are the
    fields of every value of the records the code works with, and no local
    invariant is imposed: every object with the declared fields, whatever
    the values under them, is a value of the record, and different records
    are different objects. *)
Theorem entities_are_plain_records :
  (fields api_Note = spec_Note_fields
   ∧ fields auth_server_User = spec_User_fields
   ∧ fields dashboard_client_User = spec_User_fields
   ∧ fields api_User
     = ["id"; "email"; "name"; "dob"; "isVerified"; "createdAt"]%string)
  ∧ (∀ n, shape (object_of_Note n) = api_Note)
  ∧ (∀ u, shape (object_of_User u) = auth_server_User
          ∧ shape (object_of_User u) = dashboard_client_User)
  ∧ (∀ p, shape (object_of_ProfileUser p) = api_User)
  ∧ (∀ o, shape o = api_Note → ∃ n, object_of_Note n = o)
  ∧ (∀ o, shape o = auth_server_User ∨ shape o = dashboard_client_User →
          ∃ u, object_of_User u = o)
  ∧ (∀ o, shape o = api_User → ∃ p, object_of_ProfileUser p = o)
  ∧ (∀ n n', object_of_Note n = object_of_Note n' → n = n')
  ∧ (∀ u u', object_of_User u = object_of_User u' → u = u')
  ∧ (∀ p p', object_of_ProfileUser p = object_of_ProfileUser p' → p = p').
Proof.
  split; [repeat split; reflexivity|].
  split; [intros n; reflexivity|].
  split; [intros u; split; reflexivity|].
  split; [intros p; reflexivity|].
  split; [|split; [|split]].
  - intros o H. object_of_shape o H.
    eexists (Build_Note _ _ _ _ _). reflexivity.
  - intros o [H|H]; object_of_shape o H;
      eexists (Build_User _ _ _ _ _); reflexivity.
  - intros o H. object_of_shape o H.
    eexists (Http.Build_ProfileUser (Build_User _ _ _ _ _) _). reflexivity.
  - split; [|split].
    + intros [] [] H. cbn in H. simplify_eq. reflexivity.
    + intros [] [] H. cbn in H. simplify_eq. reflexivity.
    + intros [[] ?] [[] ?] H. cbn in H. simplify_eq. reflexivity.
Qed.

(** Alice as an object, and an object with an empty id and a blank name
    read back as a user. *)
Lemma entities_are_plain_records_witness :
  shape (object_of_User Sample.alice) = auth_server_User
  ∧ ∃ u, object_of_User u
         = [("id", VString (lit "")); ("email", VString (lit "not an email"));
            ("name", VString (lit " ")); ("isVerified", VBoolean false);
            ("createdAt", VString (lit "yesterday"))]%string.
Proof.
  destruct entities_are_plain_records as (_ & _ & Hshape & _ & _ & Hany & _).
  split; [exact (proj1 (Hshape Sample.alice))|].
  apply Hany. left. reflexivity.
Defined.

End DeclSpec.

(** ** The bearer token *)

Module TokenFacts.
Import Http Browser Api ApiFacts.

Section Frame.
Context {S : Type} (server : Server).

(** What a request from world [w] carries, by what is stored. *)
Lemma outgoing_Authorization (w : World S) (m : Method) (u : jsstring)
  (b : Body) :
  Authorization (outgoing w m u b) =
  match localStorage w !! lit "authToken" with
  | Some t => if truthy t then Some (lit "Bearer " ++ t) else None
  | None => None
  end.
Proof.
  unfold outgoing, bearer.
  destruct (localStorage w !! lit "authToken") as [t|]; [|reflexivity].
  destruct (truthy t); reflexivity.
Qed.

(** What a method that is one plain call does to the world. *)
Lemma plain_call_effect (e : Endpoint) (m : Method) (u : jsstring) (b : Body)
  (fallback : jsstring) (w : World S) :
  let w' := (bind (try_catch
                     (response <- axios server e m u b;;
                      handleResponse response)
                     (rethrow fallback))
               (λ _, ret tt) w).2 in
  sent w' = sent w ++ [outgoing w m u b]
  ∧ localStorage w' = localStorage w.
Proof.
  cbn zeta.
  remember (try_catch (response <- axios server e m u b;;
                       handleResponse response) (rethrow fallback))
    as method eqn:Hmethod.
  unfold bind. subst method. rewrite plain_call_run. cbn zeta.
  destruct (server e _ _); split; reflexivity.
Qed.

(** Every method but [hasLocalToken] sends exactly one request, built by
    [outgoing]; the store is left alone or loses the token, except that
    [verifyOTP] may set it from the response header. *)
Lemma call_effect (op : Operation) (w : World S) :
  let w' := (call server op w).2 in
  (op = OpHasLocalToken ∧ w' = w)
  ∨ ∃ m u b,
      sent w' = sent w ++ [outgoing w m u b]
      ∧ (localStorage w' = localStorage w
         ∨ localStorage w' = delete (lit "authToken") (localStorage w)
         ∨ ∃ email otp r h,
             op = OpVerifyOTP email otp
             ∧ server EpVerifyOTP (sent w)
                 (outgoing w POST (lit "/auth/verify-otp")
                    (VerifyOTPBody email otp)) = Fulfilled r
             ∧ headers r !! lit "authorization" = Some h
             ∧ startsWith (lit "Bearer ") h = true
             ∧ localStorage w' =
                 <[lit "authToken" := substring 7 h]> (localStorage w)).
Proof.
  cbn zeta.
  destruct op as [d|email otp|email|email| |page limit search|title content
                 |id title content|id|id| | ]; cbn [call].
  - right. do 3 eexists. unfold bind. rewrite signup_run. cbn zeta.
    destruct (server EpSignup _ _) as [r|[[[st [m|]]|]| |]];
      (split; [reflexivity | left; reflexivity]).
  - right. do 3 eexists. unfold bind. rewrite verifyOTP_run. cbn zeta.
    destruct (server EpVerifyOTP _ _) as [r|err] eqn:Hcall.
    + destruct (headers r !! lit "authorization") as [h|] eqn:Hh;
        [|split; [reflexivity | left; reflexivity]].
      destruct (truthy h && startsWith (lit "Bearer ") h) eqn:Hb;
        [|split; [reflexivity | left; reflexivity]].
      split; [reflexivity|]. right. right.
      exists email, otp, r, h. apply andb_true_iff in Hb as [_ Hb].
      repeat split; try assumption; reflexivity.
    + split; [reflexivity | left; reflexivity].
  - destruct (plain_call_effect EpLogin POST (lit "/auth/login") (LoginBody email) (lit "Login failed") w)
      as [Hs Hl].
    right. do 3 eexists. split; [exact Hs | left; exact Hl].
  - destruct (plain_call_effect EpResendOTP POST (lit "/auth/resend-otp") (ResendOTPBody email)
                (lit "Resend OTP failed") w)
      as [Hs Hl].
    right. do 3 eexists. split; [exact Hs | left; exact Hl].
  - destruct (plain_call_effect EpProfile GET (lit "/auth/profile") NoBody
                (lit "Get profile failed") w)
      as [Hs Hl].
    right. do 3 eexists. split; [exact Hs | left; exact Hl].
  - right. do 3 eexists. unfold bind. rewrite getNotes_run. cbn zeta.
    destruct (server EpNotes _ _) as [r|err];
      [split; [reflexivity | left; reflexivity]|].
    destruct (isAxiosError err); [|split; [reflexivity | left; reflexivity]].
    destruct (bool_decide _);
      (split; [reflexivity|]); [right; left | left]; reflexivity.
  - destruct (plain_call_effect EpCreateNote POST (lit "/notes")
                (CreateNoteBody title content) (lit "Create note failed") w)
      as [Hs Hl].
    right. do 3 eexists. split; [exact Hs | left; exact Hl].
  - destruct (plain_call_effect EpUpdateNote PUT (lit "/notes/" ++ id)
                (UpdateNoteBody title content) (lit "Update note failed") w)
      as [Hs Hl].
    right. do 3 eexists. split; [exact Hs | left; exact Hl].
  - destruct (plain_call_effect EpDeleteNote DELETE (lit "/notes/" ++ id) NoBody
                (lit "Delete note failed") w)
      as [Hs Hl].
    right. do 3 eexists. split; [exact Hs | left; exact Hl].
  - destruct (plain_call_effect EpNoteById GET (lit "/notes/" ++ id) NoBody
                (lit "Get note failed") w)
      as [Hs Hl].
    right. do 3 eexists. split; [exact Hs | left; exact Hl].
  - right. do 3 eexists. unfold bind. rewrite logout_run. cbn zeta.
    destruct (server EpLogout _ _) as [r|err];
      (split; [reflexivity|]); [right; left | left]; reflexivity.
  - left. split; [reflexivity|].
    unfold hasLocalToken, getItem, bind, get, ret. reflexivity.
Qed.

End Frame.
End TokenFacts.

Module TokenSpec.
Import Http Browser Api ApiFacts TokenFacts.

(** A header that starts with [Bearer ] and has no blanks around it has a
    token after the prefix. *)
Lemma trimmed_bearer_has_token (h : jsstring) :
  startsWith (lit "Bearer ") h = true → trim h = h → substring 7 h ≠ lit "".
Proof.
  intros Hstart Htrim Hempty.
  pose proof (JsFacts.startsWith_inv _ _ Hstart) as Hsplit.
  change (length (lit "Bearer ")) with 7%nat in Hsplit.
  unfold substring in Hempty. rewrite Hempty in Hsplit. subst h.
  vm_compute in Htrim. discriminate Htrim.
Qed.

(** One more call after some calls. *)
Lemma calls_snoc {S : Type} (server : Server) (ops : list Operation)
  (op : Operation) (w : World S) :
  calls server (ops ++ [op]) w = (call server op (calls server ops w)).2.
Proof. unfold calls. rewrite foldl_app. reflexivity. Qed.

(** C6, as stated, fails: the token does not outlive a logout. After a
    verification that stored the token tok123, a fulfilled logout removes
    it, and the profile request that follows carries no Authorization
    header. *)
Lemma token_is_dropped_by_logout :
  ¬ token_attached_ever_after (S := unit) (Sample.accepting "Bearer tok123").
Proof.
  intros H.
  specialize (H (Sample.world tt ∅) (lit "alice@example.com") (lit "123456")
                _ _ eq_refl eq_refl eq_refl).
  cbn zeta in H. destruct H as [_ H].
  destruct (H [OpLogout] OpGetProfile) as (rq & Hsent & Hauth); [discriminate|].
  vm_compute in Hsent. injection Hsent as <-.
  vm_compute in Hauth. discriminate Hauth.
Qed.

(** C6, amended. Token handling is storage-only. After a fulfilled OTP
    verification whose Authorization header, as delivered (without blanks
    around it), starts with [Bearer ], the rest of the header is stored
    under [authToken]. However many calls later, a request sent while that
    token is still stored carries it as a Bearer Authorization header, and
    a request sent once the token is gone carries no Authorization header.
    No method renews the token: as long as [verifyOTP] is not called again
    the stored token is that same token or none, and each call leaves the
    store as it is or removes the token ([logout], and [getNotes] on a
    401). *)
Theorem token_is_stored_and_attached {S : Type} (server : Server)
  (w : World S) (email otp : jsstring)
  (r : AxiosResponse (Payload EpVerifyOTP)) (h : jsstring) :
  server EpVerifyOTP (sent w)
    (outgoing w POST (lit "/auth/verify-otp") (VerifyOTPBody email otp))
  = Fulfilled r →
  headers r !! lit "authorization" = Some h →
  startsWith (lit "Bearer ") h = true →
  trim h = h →
  let tok := substring 7 h in
  let w1 := (verifyOTP server email otp w).2 in
  localStorage w1 !! lit "authToken" = Some tok
  ∧ (∀ ops op, op ≠ OpHasLocalToken →
       let wn := calls server ops w1 in
       (localStorage wn !! lit "authToken" = Some tok →
        ∃ rq, sent (call server op wn).2 = sent wn ++ [rq]
              ∧ Authorization rq = Some (lit "Bearer " ++ tok))
       ∧ (localStorage wn !! lit "authToken" = None →
          ∃ rq, sent (call server op wn).2 = sent wn ++ [rq]
                ∧ Authorization rq = None))
  ∧ (∀ ops, Forall (λ op, ∀ e o, op ≠ OpVerifyOTP e o) ops →
       localStorage (calls server ops w1) !! lit "authToken" = Some tok
       ∨ localStorage (calls server ops w1) !! lit "authToken" = None)
  ∧ (∀ ops op, (∀ e o, op ≠ OpVerifyOTP e o) →
       let wn := calls server ops w1 in
       localStorage (call server op wn).2 = localStorage wn
       ∨ localStorage (call server op wn).2 =
           delete (lit "authToken") (localStorage wn)).
Proof.
  intros Hcall Hh Hstart Htrim tok w1.
  pose proof (trimmed_bearer_has_token h Hstart Htrim) as Htok.
  assert (Hstep : ∀ (w0 : World S) op, (∀ e o, op ≠ OpVerifyOTP e o) →
            localStorage (call server op w0).2 = localStorage w0
            ∨ localStorage (call server op w0).2 =
                delete (lit "authToken") (localStorage w0)).
  { intros w0 op Hop.
    destruct (call_effect server op w0)
      as [[-> ->]|(m & u & b & _ & [H|[H|(e & o & r0 & h0 & -> & _)]])].
    - left. reflexivity.
    - left. exact H.
    - right. exact H.
    - exfalso. exact (Hop e o eq_refl). }
  assert (Hstored : localStorage w1 !! lit "authToken" = Some tok).
  { subst w1 tok. rewrite verifyOTP_run. cbn zeta. unfold outgoing in Hcall.
    rewrite Hcall, Hh, Hstart.
    destruct h as [|c h']; [discriminate Hstart|]. cbn [truthy andb].
    cbn [snd with_localStorage localStorage]. apply lookup_insert_eq. }
  split; [exact Hstored|]. split; [|split].
  - intros ops op Hop wn. split; intros Hwn;
      (destruct (call_effect server op wn) as [[-> _]|(m & u & b & Hsent & _)];
       [contradiction|]);
      exists (outgoing wn m u b); (split; [exact Hsent|]);
      rewrite outgoing_Authorization, Hwn; [|reflexivity].
    assert (Ht : truthy tok = true)
      by (unfold tok; destruct (substring 7 h); [contradiction|reflexivity]).
    rewrite Ht. reflexivity.
  - intros ops. induction ops as [|op ops IH] using rev_ind; intros Hall.
    + left. exact Hstored.
    + apply Forall_app in Hall as [Hops Hop].
      rewrite Forall_singleton in Hop. rewrite calls_snoc.
      destruct (Hstep (calls server ops w1) op Hop) as [-> | ->].
      * apply IH. exact Hops.
      * right. apply lookup_delete_eq.
  - intros ops op Hop wn. apply Hstep. exact Hop.
Qed.

(** Alice verifies her OTP and the token tok123 is stored. Two calls
    later the create-note request still carries it; after a logout the
    token is gone and the next request carries no Authorization header. *)
Lemma token_is_stored_and_attached_witness :
  let server := Sample.accepting "Bearer tok123" in
  let w1 := (verifyOTP server (lit "alice@example.com") (lit "123456")
               (Sample.world tt ∅)).2 in
  localStorage w1 !! lit "authToken" = Some (lit "tok123")
  ∧ (∃ rq, sent (call server (OpCreateNote (lit "Groceries") (lit "milk"))
                   (calls server [OpGetNotes 1 10 None; OpGetProfile] w1)).2
           = sent (calls server [OpGetNotes 1 10 None; OpGetProfile] w1) ++ [rq]
           ∧ Authorization rq = Some (lit "Bearer tok123"))
  ∧ (∃ rq, sent (call server OpGetProfile (calls server [OpLogout] w1)).2
           = sent (calls server [OpLogout] w1) ++ [rq]
           ∧ Authorization rq = None).
Proof.
  cbn zeta.
  destruct (token_is_stored_and_attached (Sample.accepting "Bearer tok123")
              (Sample.world tt ∅) (lit "alice@example.com") (lit "123456")
              _ (lit "Bearer tok123") eq_refl eq_refl eq_refl eq_refl)
    as (Hstored & Hattach & _).
  split; [exact Hstored|]. split.
  - apply (Hattach [OpGetNotes 1 10 None; OpGetProfile]
             (OpCreateNote (lit "Groceries") (lit "milk")));
      [discriminate | reflexivity].
  - apply (Hattach [OpLogout] OpGetProfile); [discriminate | reflexivity].
Defined.

End TokenSpec.

(** ** Spot checks of the string and matcher models *)

Module SpotChecks.

Example trim_examples :
  trim (lit "  hello world ") = lit "hello world"
  ∧ trim [9; 10; 160; 32; 8232]%N = lit ""
  ∧ trim (lit "") = lit ""
  ∧ trim [104; 160; 105]%N = [104; 160; 105]%N.
Proof. vm_compute. repeat split; reflexivity. Qed.

Example startsWith_examples :
  startsWith (lit "/dashboard") (lit "/dashboard/settings") = true
  ∧ startsWith (lit "/dashboard") (lit "/dash") = false
  ∧ startsWith (lit "Bearer ") (lit "Bearer abc") = true
  ∧ startsWith (lit "Bearer ") (lit "bearer abc") = false
  ∧ substring 7 (lit "Bearer abc") = lit "abc"
  ∧ includes (lit "authToken=") (lit "theme=dark; authToken=abc") = true.
Proof. vm_compute. repeat split; reflexivity. Qed.

Example matcher_examples :
  map GatingMiddleware.matcher
    [lit "/"; lit "/dashboard"; lit "/signin"; lit "/signup"; lit "/api/x";
     lit "/_next/static/a.js"; lit "/favicon.ico"; lit "/logo.png"; lit "x"]
  = [true; true; true; true; false; false; false; false; false]
  ∧ map RootMiddleware.matcher [lit "/"; lit "/dashboard"; lit "/signin"]
    = [true; false; false].
Proof. vm_compute. split; reflexivity. Qed.

(** The middleware with the backend check keeps the path it turned away in
    the query of the redirect. *)
Example protected_redirect_keeps_path :
  (GatingMiddleware.middleware Sample.rt_session
     (Sample.request_for "/dashboard" None) []).1
  = Normal (Edge.redirect
              {| Edge.url_origin := lit "https://notes.example.com";
                 Edge.url_pathname := lit "/signin";
                 Edge.searchParams := [(lit "redirect", lit "/dashboard")] |}).
Proof. vm_compute. reflexivity. Qed.

(** A backend that reports success without a user: the server helper
    sends the request to /signin while the sign-in page sends it back. *)
Example authenticated_without_user :
  let env := {| AuthServer.runtime :=
                  {| Fetch.NEXT_PUBLIC_API_URL := None;
                     Fetch.backend := λ _,
                       Fetch.Responds {| Fetch.status := 200;
                                         Fetch.body := Fetch.JsonData None |} |};
                AuthServer.cookies_result := Some Sample.store_with_token |} in
  Pages.serve Pages.DashboardPage env = Pages.Redirected (lit "/signin")
  ∧ Pages.serve Pages.SignInPage env = Pages.Redirected (lit "/dashboard").
Proof. vm_compute. split; reflexivity. Qed.

End SpotChecks.

(* ===================================================================== *)
(** * Further properties of the code *)
(* ===================================================================== *)

(** ** The API service, beyond the token claims *)

Module ApiMore.
Import Http Browser Api ApiFacts TokenFacts JsFacts.

Section Service.
Context {S : Type} (server : Server).

(** What a method that is one plain call resolves or rejects with. *)
Lemma plain_call_throws (e : Endpoint) (m : Method) (u : jsstring) (b : Body)
  (fallback : jsstring) (w w' : World S) (err : JsError) :
  bind (try_catch
          (response <- axios server e m u b;; handleResponse response)
          (rethrow fallback))
    (λ _, ret tt) w = (Throw err, w') →
  ∃ msg, err = Error msg.
Proof.
  remember (try_catch (response <- axios server e m u b;;
                       handleResponse response) (rethrow fallback))
    as method eqn:Hmethod.
  unfold bind. subst method. rewrite plain_call_run. cbn zeta.
  destruct (server e _ _) as [r|e0]; [discriminate|].
  intros [= <- _]. eauto.
Qed.

(** X1. No method of the service ever lets an axios error out: whatever
    the remote API does, a method that fails throws a plain [Error] (or,
    for [signup] only, a [TypeError] when the error response has no body),
    so [isAxiosError] is false on everything a caller can catch. *)
Theorem service_errors_are_plain (op : Operation) (w w' : World S)
  (err : JsError) :
  call server op w = (Throw err, w') →
  isAxiosError err = false
  ∧ ((∃ msg, err = Error msg) ∨ (err = TypeError ∧ ∃ d, op = OpSignup d)).
Proof.
  intros H.
  assert (Hshape : (∃ msg, err = Error msg)
                   ∨ (err = TypeError ∧ ∃ d, op = OpSignup d)).
  { destruct op as [d|email otp|email|email| |page limit search|title content
                   |id title content|id|id| | ]; cbn [call] in H.
    - unfold bind in H. rewrite signup_run in H. cbn zeta in H.
      destruct (server EpSignup _ _) as [r|[[[st [m|]]|]| |]];
        try discriminate; injection H as <- _; eauto.
    - unfold bind in H. rewrite verifyOTP_run in H. cbn zeta in H.
      destruct (server EpVerifyOTP _ _) as [r|e0]; [discriminate|].
      injection H as <- _. eauto.
    - left. exact (plain_call_throws EpLogin _ _ _ _ _ _ _ H).
    - left. exact (plain_call_throws EpResendOTP _ _ _ _ _ _ _ H).
    - left. exact (plain_call_throws EpProfile _ _ _ _ _ _ _ H).
    - unfold bind in H. rewrite getNotes_run in H. cbn zeta in H.
      destruct (server EpNotes _ _) as [r|e0]; [discriminate|].
      destruct (isAxiosError e0); injection H as <- _; eauto.
    - left. exact (plain_call_throws EpCreateNote _ _ _ _ _ _ _ H).
    - left. exact (plain_call_throws EpUpdateNote _ _ _ _ _ _ _ H).
    - left. exact (plain_call_throws EpDeleteNote _ _ _ _ _ _ _ H).
    - left. exact (plain_call_throws EpNoteById _ _ _ _ _ _ _ H).
    - unfold bind in H. rewrite logout_run in H. cbn zeta in H.
      destruct (server EpLogout _ _) as [r|e0]; [discriminate|].
      injection H as <- _. eauto.
    - unfold hasLocalToken, getItem, bind, get, ret in H. discriminate. }
  split; [|exact Hshape].
  destruct Hshape as [[msg ->]|[-> _]]; reflexivity.
Qed.


(** X3. [hasLocalToken] tells exactly whether a request sent now would
    carry an Authorization header; it sends nothing and changes nothing. An
    empty stored token counts as no token on both sides. *)
Theorem hasLocalToken_matches_interceptor (w : World S) (m : Method)
  (u : jsstring) (b : Body) :
  (hasLocalToken w).2 = w
  ∧ ((hasLocalToken w).1 = Normal true
     ↔ ∃ t, localStorage w !! lit "authToken" = Some t
            ∧ Authorization (outgoing w m u b) = Some (lit "Bearer " ++ t))
  ∧ ((hasLocalToken w).1 = Normal false
     ↔ Authorization (outgoing w m u b) = None).
Proof.
  rewrite outgoing_Authorization.
  unfold hasLocalToken, getItem, bind, get, ret. cbn [fst snd].
  destruct (localStorage w !! lit "authToken") as [[|c t]|]; cbn [truthy];
    (split; [reflexivity|]); split; split; try discriminate; try reflexivity.
  - intros (t' & _ & H). discriminate H.
  - intros _. exists (c :: t). split; reflexivity.
  - intros (t' & H & _). discriminate H.
Qed.


(** What [verifyOTP] leaves in localStorage, by the answer it gets. *)
Lemma verifyOTP_storage (email otp : jsstring) (w : World S) :
  localStorage (verifyOTP server email otp w).2 =
  match server EpVerifyOTP (sent w)
          (outgoing w POST (lit "/auth/verify-otp") (VerifyOTPBody email otp))
  with
  | Fulfilled r =>
      match headers r !! lit "authorization" with
      | Some h =>
          if startsWith (lit "Bearer ") h
          then <[lit "authToken" := substring 7 h]> (localStorage w)
          else localStorage w
      | None => localStorage w
      end
  | Rejected _ => localStorage w
  end.
Proof.
  rewrite verifyOTP_run. cbn zeta. unfold outgoing.
  destruct (server EpVerifyOTP _ _) as [r|err]; [|reflexivity].
  destruct (headers r !! lit "authorization") as [[|c h]|]; try reflexivity.
  cbn [truthy andb]. destruct (startsWith _ _); reflexivity.
Qed.

(** X5. [verifyOTP] writes the token only from a fulfilled response whose
    Authorization header starts with [Bearer ] (capital B, one space): it
    then overwrites whatever was stored. A fulfilled response with no such
    header, or with another scheme or spelling, and every rejected call,
    leave localStorage exactly as it was; [verifyOTP] never removes a
    token. *)
Theorem verifyOTP_stores_only_bearer (email otp : jsstring) (w : World S) :
  let rq := outgoing w POST (lit "/auth/verify-otp") (VerifyOTPBody email otp) in
  let w' := (verifyOTP server email otp w).2 in
  (∀ r h, server EpVerifyOTP (sent w) rq = Fulfilled r →
          headers r !! lit "authorization" = Some h →
          startsWith (lit "Bearer ") h = true →
          localStorage w' = <[lit "authToken" := substring 7 h]> (localStorage w))
  ∧ (∀ r, server EpVerifyOTP (sent w) rq = Fulfilled r →
          (headers r !! lit "authorization" = None
           ∨ ∃ h, headers r !! lit "authorization" = Some h
                  ∧ startsWith (lit "Bearer ") h = false) →
          localStorage w' = localStorage w)
  ∧ (∀ err, server EpVerifyOTP (sent w) rq = Rejected err →
            localStorage w' = localStorage w)
  ∧ (∀ t, localStorage w !! lit "authToken" = Some t →
          is_Some (localStorage w' !! lit "authToken")).
Proof.
  cbn zeta. rewrite verifyOTP_storage.
  split; [|split; [|split]].
  - intros r h -> -> ->. reflexivity.
  - intros r -> [-> | (h & -> & ->)]; reflexivity.
  - intros err ->. reflexivity.
  - intros t Ht.
    destruct (server EpVerifyOTP _ _) as [r|err]; [|rewrite Ht; eauto].
    destruct (headers r !! lit "authorization") as [h|]; [|rewrite Ht; eauto].
    destruct (startsWith _ _); [|rewrite Ht; eauto].
    rewrite lookup_insert_eq. eauto.
Qed.

(** X6. The Authorization header makes a round trip: when a verification
    is fulfilled with a header [h] that starts with [Bearer ] and has a
    token after it, the next request of any method carries exactly [h] as
    its own Authorization header. *)
Theorem bearer_header_round_trip (email otp : jsstring) (w : World S)
  (r : AxiosResponse (Payload EpVerifyOTP)) (h : jsstring) (op : Operation) :
  server EpVerifyOTP (sent w)
    (outgoing w POST (lit "/auth/verify-otp") (VerifyOTPBody email otp))
  = Fulfilled r →
  headers r !! lit "authorization" = Some h →
  startsWith (lit "Bearer ") h = true →
  h ≠ lit "Bearer " →
  op ≠ OpHasLocalToken →
  let w1 := (verifyOTP server email otp w).2 in
  ∃ rq, sent (call server op w1).2 = sent w1 ++ [rq]
        ∧ Authorization rq = Some h.
Proof.
  intros Hcall Hh Hstart Hne Hop w1.
  assert (Hstored : localStorage w1 !! lit "authToken" = Some (substring 7 h)).
  { subst w1. rewrite verifyOTP_storage, Hcall, Hh, Hstart.
    apply lookup_insert_eq. }
  pose proof (startsWith_inv _ _ Hstart) as Hsplit.
  change (length (lit "Bearer ")) with 7%nat in Hsplit.
  destruct (call_effect server op w1) as [[-> _]|(m & u & b & Hsent & _)];
    [contradiction|].
  exists (outgoing w1 m u b). split; [exact Hsent|].
  rewrite outgoing_Authorization, Hstored. unfold substring.
  destruct (drop 7 h) as [|c t] eqn:Hdrop.
  - exfalso. apply Hne. rewrite Hsplit. rewrite app_nil_r. reflexivity.
  - cbn [truthy]. f_equal. symmetry. exact Hsplit.
Qed.

End Service.

Lemma service_errors_are_plain_witness :
  ∃ w',
    call (Sample.rejecting 401 "Unauthorized") (OpLogin (lit "alice@example.com"))
      (Sample.world tt ∅) = (Throw (Error (lit "Unauthorized")), w')
    ∧ isAxiosError (Error (lit "Unauthorized")) = false.
Proof.
  eexists. split; [reflexivity|].
  exact (proj1 (service_errors_are_plain
                  (Sample.rejecting 401 "Unauthorized")
                  (OpLogin (lit "alice@example.com"))
                  (Sample.world tt ∅) _ _ eq_refl)).
Defined.



Lemma verifyOTP_stores_only_bearer_witness :
  let stored := {[ lit "authToken" := lit "old" ]} in
  localStorage (verifyOTP (Sample.accepting "Bearer tok123")
                  (lit "alice@example.com") (lit "123456")
                  (Sample.world tt stored)).2
    = <[lit "authToken" := lit "tok123"]> stored
  ∧ localStorage (verifyOTP (Sample.accepting "bearer tok123")
                    (lit "alice@example.com") (lit "123456")
                    (Sample.world tt stored)).2 = stored
  ∧ localStorage (verifyOTP (Sample.rejecting 400 "Invalid OTP")
                    (lit "alice@example.com") (lit "123456")
                    (Sample.world tt stored)).2 = stored.
Proof.
  cbn zeta. split; [|split].
  - destruct (verifyOTP_stores_only_bearer (Sample.accepting "Bearer tok123")
                (lit "alice@example.com") (lit "123456")
                (Sample.world tt {[ lit "authToken" := lit "old" ]}))
      as (Hset & _).
    exact (Hset _ (lit "Bearer tok123") eq_refl eq_refl eq_refl).
  - destruct (verifyOTP_stores_only_bearer (Sample.accepting "bearer tok123")
                (lit "alice@example.com") (lit "123456")
                (Sample.world tt {[ lit "authToken" := lit "old" ]}))
      as (_ & Hkeep & _).
    apply (Hkeep _ eq_refl). right. exists (lit "bearer tok123").
    split; reflexivity.
  - destruct (verifyOTP_stores_only_bearer (Sample.rejecting 400 "Invalid OTP")
                (lit "alice@example.com") (lit "123456")
                (Sample.world tt {[ lit "authToken" := lit "old" ]}))
      as (_ & _ & Hrej & _).
    exact (Hrej _ eq_refl).
Defined.

Lemma bearer_header_round_trip_witness :
  let server := Sample.accepting "Bearer tok123" in
  let w1 := (verifyOTP server (lit "alice@example.com") (lit "123456")
               (Sample.world tt ∅)).2 in
  ∃ rq, sent (call server (OpCreateNote (lit "Groceries") (lit "milk")) w1).2
        = sent w1 ++ [rq]
        ∧ Authorization rq = Some (lit "Bearer tok123").
Proof.
  cbn zeta.
  refine (bearer_header_round_trip (Sample.accepting "Bearer tok123")
            (lit "alice@example.com") (lit "123456") (Sample.world tt ∅)
            _ (lit "Bearer tok123")
            (OpCreateNote (lit "Groceries") (lit "milk"))
            eq_refl eq_refl eq_refl _ _); discriminate.
Defined.

Lemma hasLocalToken_matches_interceptor_witness :
  (hasLocalToken (Sample.world tt {[ lit "authToken" := lit "tok123" ]})).1
    = Normal true
  ∧ (hasLocalToken (Sample.world tt {[ lit "authToken" := lit "" ]})).1
    = Normal false.
Proof.
  split.
  - apply (hasLocalToken_matches_interceptor
             (Sample.world tt {[ lit "authToken" := lit "tok123" ]})
             GET (lit "/notes") NoBody).
    exists (lit "tok123"). split; reflexivity.
  - apply (hasLocalToken_matches_interceptor
             (Sample.world tt {[ lit "authToken" := lit "" ]})
             GET (lit "/notes") NoBody).
    reflexivity.
Defined.

End ApiMore.

(** ** The dashboard handlers, beyond the claims *)

Module DashboardMore.
Import Http Browser Api ApiFacts Dashboard DashboardFacts.

(** Filtering out an id no note has keeps the list. *)
Lemma filter_absent_id (id : jsstring) (l : list Note) :
  (∀ n, n ∈ l → note_id n ≠ id) →
  filter (λ n, note_id n ≠ id) l = l.
Proof.
  induction l as [|n rest IH]; intros Hall; [reflexivity|].
  rewrite filter_cons_True by (apply Hall; left).
  f_equal. apply IH. intros m Hm. apply Hall. right. exact Hm.
Qed.

Section Handlers.
Context (server : Server).

(** X7. Loading the notes always ends the loading state and never
    throws; one GET /notes with page 1 and limit 10 is sent. The list is
    replaced by the server's list exactly when the response has [success]
    and [data]; an unsuccessful response or a rejected call leaves the list
    as it was. The dialog and the two inputs are never touched. *)
Theorem fetchNotes_outcome (w : World State) :
  let rq := outgoing w GET (lit "/notes")
              (NotesParams (lit "1") (lit "10") None) in
  let w' := (fetchNotes server w).2 in
  (fetchNotes server w).1 = Normal tt
  ∧ isLoading (ui w') = false
  ∧ sent w' = sent w ++ [rq]
  ∧ (isDialogOpen (ui w') = isDialogOpen (ui w)
     ∧ newNoteTitle (ui w') = newNoteTitle (ui w)
     ∧ newNoteContent (ui w') = newNoteContent (ui w))
  ∧ (∀ r d, server EpNotes (sent w) rq = Fulfilled r →
            success (response_data r) = true →
            data (response_data r) = Some d →
            notes (ui w') = Http.notes d)
  ∧ (∀ r, server EpNotes (sent w) rq = Fulfilled r →
          success (response_data r) = false ∨ data (response_data r) = None →
          notes (ui w') = notes (ui w))
  ∧ (∀ err, server EpNotes (sent w) rq = Rejected err →
            notes (ui w') = notes (ui w)).
Proof.
  cbn zeta. rewrite fetchNotes_run. cbn zeta. unfold outgoing.
  change (toString 1) with (lit "1"). change (toString 10) with (lit "10").
  destruct (server EpNotes _ _) as [[st hs [[|] ms [d|]]]|err];
    [| | | |destruct (isAxiosError err && _)];
    repeat split; try reflexivity; intros;
    destruct_or?; simplify_eq/=; reflexivity.
Qed.

(** X8. A create-note submission with a non-blank title sends one POST
    /notes whose body is the title and content exactly as typed (the title
    is not trimmed), never throws, and ends with [isCreating] false. On a
    response with [success] and [data] both inputs are cleared and the
    dialog is closed. On an unsuccessful response or a rejected call the
    list, the dialog and what the user typed all stay as they were. *)
Theorem handleCreateNote_outcome (w : World State) :
  trim (newNoteTitle (ui w)) ≠ lit "" →
  let rq := outgoing w POST (lit "/notes")
              (CreateNoteBody (newNoteTitle (ui w)) (newNoteContent (ui w))) in
  let w' := (handleCreateNote server w).2 in
  (handleCreateNote server w).1 = Normal tt
  ∧ sent w' = sent w ++ [rq]
  ∧ isCreating (ui w') = false
  ∧ (∀ r d, server EpCreateNote (sent w) rq = Fulfilled r →
            success (response_data r) = true →
            data (response_data r) = Some d →
            newNoteTitle (ui w') = lit ""
            ∧ newNoteContent (ui w') = lit ""
            ∧ isDialogOpen (ui w') = false)
  ∧ ((∃ r, server EpCreateNote (sent w) rq = Fulfilled r
           ∧ (success (response_data r) = false
              ∨ data (response_data r) = None))
     ∨ (∃ err, server EpCreateNote (sent w) rq = Rejected err) →
     notes (ui w') = notes (ui w)
     ∧ newNoteTitle (ui w') = newNoteTitle (ui w)
     ∧ newNoteContent (ui w') = newNoteContent (ui w)
     ∧ isDialogOpen (ui w') = isDialogOpen (ui w)).
Proof.
  intros Htitle. cbn zeta. rewrite handleCreateNote_run. cbn zeta.
  unfold eqb. rewrite bool_decide_eq_false_2 by exact Htitle.
  unfold outgoing.
  destruct (server EpCreateNote _ _) as [[st hs [[|] ms [d|]]]|err];
    repeat split; try reflexivity; intros;
    repeat match goal with
           | H : _ ∨ _ |- _ => destruct H
           | H : ∃ _, _ |- _ => destruct H
           | H : _ ∧ _ |- _ => destruct H
           end; simplify_eq/=; reflexivity.
Qed.

(** X9. Deleting a note sends one DELETE /notes/<id> and never throws.
    A rejected call leaves the list as it was; so does deleting an id no
    note has. The list never grows, and nothing but the list changes in the
    component. *)
Theorem handleDeleteNote_outcome (id : jsstring) (w : World State) :
  let rq := outgoing w DELETE (lit "/notes/" ++ id) NoBody in
  let w' := (handleDeleteNote server id w).2 in
  (handleDeleteNote server id w).1 = Normal tt
  ∧ sent w' = sent w ++ [rq]
  ∧ (length (notes (ui w')) ≤ length (notes (ui w)))%nat
  ∧ (∀ err, server EpDeleteNote (sent w) rq = Rejected err →
            ui w' = ui w)
  ∧ ((∀ n, n ∈ notes (ui w) → note_id n ≠ id) →
     notes (ui w') = notes (ui w))
  ∧ (isDialogOpen (ui w') = isDialogOpen (ui w)
     ∧ newNoteTitle (ui w') = newNoteTitle (ui w)
     ∧ newNoteContent (ui w') = newNoteContent (ui w)
     ∧ error (ui w') = error (ui w)).
Proof.
  cbn zeta. rewrite handleDeleteNote_run. cbn zeta. unfold outgoing.
  destruct (server EpDeleteNote _ _) as [r|err];
    cbn [fst snd setNotes setState modify with_ui with_sent ui sent notes
         isDialogOpen newNoteTitle newNoteContent error].
  - split; [reflexivity|]. split; [reflexivity|].
    split; [apply length_filter|]. split; [intros err [=]|].
    split; [|repeat split; reflexivity].
    intros Hall. apply filter_absent_id. exact Hall.
  - split; [reflexivity|]. split; [reflexivity|]. split; [reflexivity|].
    split; [reflexivity|]. split; [reflexivity|]. repeat split; reflexivity.
Qed.

(** X10. Creating a note and then deleting it by the id the server gave
    it brings the list back to what it was, provided no note already in the
    list has that id. *)
Theorem create_then_delete_restores (w : World State)
  (r : AxiosResponse (Payload EpCreateNote)) (d : NoteData)
  (r' : AxiosResponse (Payload EpDeleteNote)) :
  trim (newNoteTitle (ui w)) ≠ lit "" →
  server EpCreateNote (sent w)
    (outgoing w POST (lit "/notes")
       (CreateNoteBody (newNoteTitle (ui w)) (newNoteContent (ui w))))
  = Fulfilled r →
  success (response_data r) = true →
  data (response_data r) = Some d →
  (∀ n, n ∈ notes (ui w) → note_id n ≠ note_id (note d)) →
  let w1 := (handleCreateNote server w).2 in
  server EpDeleteNote (sent w1)
    (outgoing w1 DELETE (lit "/notes/" ++ note_id (note d)) NoBody)
  = Fulfilled r' →
  notes (ui (handleDeleteNote server (note_id (note d)) w1).2) = notes (ui w).
Proof.
  intros Htitle Hcreate Hsucc Hdata Hfresh w1 Hdelete.
  rewrite handleDeleteNote_run. cbn zeta. unfold outgoing in Hdelete.
  rewrite Hdelete.
  cbn [snd setNotes setState modify with_ui with_sent ui notes].
  subst w1. rewrite handleCreateNote_run. cbn zeta.
  unfold eqb. rewrite bool_decide_eq_false_2 by exact Htitle.
  unfold outgoing in Hcreate. rewrite Hcreate.
  destruct r as [st hs [su ms da]]; cbn in Hsucc, Hdata; subst su da.
  cbn [snd setIsCreating setIsDialogOpen setNewNoteContent setNewNoteTitle
       setNotes setState modify with_ui with_sent with_defaultPrevented ui
       notes success data response_data].
  rewrite filter_cons_False by (intros H; apply H; reflexivity).
  apply filter_absent_id. exact Hfresh.
Qed.

(** What [handleLogout] does, by the answer to the logout request. *)
Lemma handleLogout_run (w : World State) :
  handleLogout server w =
  let rq := outgoing w POST (lit "/auth/logout") NoBody in
  (Normal tt,
   with_navigation (router_push (lit "/signin"))
     match server EpLogout (sent w) rq with
     | Fulfilled _ =>
         with_localStorage (delete (lit "authToken")) (with_sent rq w)
     | Rejected _ => with_sent rq w
     end).
Proof.
  unfold handleLogout, try_catch, bind. rewrite logout_run. cbn zeta.
  unfold outgoing, push, modify.
  destruct (server EpLogout _ _) as [r|err]; reflexivity.
Qed.

(** X11. Signing out always ends on /signin: one POST /auth/logout is
    sent, the handler never throws, the component state is untouched and
    [router.push] is called once with /signin, whether the request succeeds
    or not. The stored token is removed only when the request is fulfilled;
    after a failed logout the browser is on /signin with the token still in
    localStorage. *)
Theorem handleLogout_always_leaves (w : World State) :
  let rq := outgoing w POST (lit "/auth/logout") NoBody in
  let w' := (handleLogout server w).2 in
  (handleLogout server w).1 = Normal tt
  ∧ navigation w' = navigation w ++ [router_push (lit "/signin")]
  ∧ sent w' = sent w ++ [rq]
  ∧ ui w' = ui w
  ∧ (∀ r, server EpLogout (sent w) rq = Fulfilled r →
          localStorage w' = delete (lit "authToken") (localStorage w))
  ∧ (∀ err, server EpLogout (sent w) rq = Rejected err →
            localStorage w' = localStorage w).
Proof.
  cbn zeta. rewrite handleLogout_run. cbn zeta.
  destruct (server EpLogout _ _) as [r0|e0];
    repeat split; try reflexivity; intros; simplify_eq.
Qed.

End Handlers.

Lemma fetchNotes_outcome_witness :
  notes (ui (fetchNotes (Sample.accepting "Bearer tok123")
               (Sample.world Dashboard.initial ∅)).2)
    = [Sample.groceries; Sample.chores]
  ∧ notes (ui (fetchNotes (Sample.rejecting 500 "Database unavailable")
                 (Sample.world (Sample.dashboard "" [Sample.chores]) ∅)).2)
    = [Sample.chores].
Proof.
  split.
  - destruct (fetchNotes_outcome (Sample.accepting "Bearer tok123")
                (Sample.world Dashboard.initial ∅))
      as (_ & _ & _ & _ & Hload & _).
    exact (Hload _ _ eq_refl eq_refl eq_refl).
  - destruct (fetchNotes_outcome (Sample.rejecting 500 "Database unavailable")
                (Sample.world (Sample.dashboard "" [Sample.chores]) ∅))
      as (_ & _ & _ & _ & _ & _ & Hfail).
    exact (Hfail _ eq_refl).
Defined.

Lemma handleCreateNote_outcome_witness :
  let w := Sample.world (Sample.dashboard " Groceries " [Sample.chores]) ∅ in
  body <$> last (sent (handleCreateNote (Sample.accepting "Bearer tok123") w).2)
    = Some (CreateNoteBody (lit " Groceries ") (lit "milk"))
  ∧ newNoteTitle (ui (handleCreateNote (Sample.accepting "Bearer tok123") w).2)
    = lit ""
  ∧ newNoteTitle (ui (handleCreateNote
                        (Sample.rejecting 500 "Database unavailable") w).2)
    = lit " Groceries ".
Proof.
  cbn zeta.
  assert (Htitle : trim (newNoteTitle
                           (ui (Sample.world
                                  (Sample.dashboard " Groceries " [Sample.chores])
                                  ∅))) ≠ lit "").
  { vm_compute. discriminate. }
  destruct (handleCreateNote_outcome (Sample.accepting "Bearer tok123") _ Htitle)
    as (_ & Hsent & _ & Hok & _).
  destruct (handleCreateNote_outcome
              (Sample.rejecting 500 "Database unavailable") _ Htitle)
    as (_ & _ & _ & _ & Hkeep).
  split; [|split].
  - rewrite Hsent. reflexivity.
  - exact (proj1 (Hok _ {| note := Sample.groceries |} eq_refl eq_refl eq_refl)).
  - apply Hkeep. right. eexists. reflexivity.
Defined.

Lemma handleDeleteNote_outcome_witness :
  let w := Sample.world (Sample.dashboard "" [Sample.groceries; Sample.chores]) ∅ in
  notes (ui (handleDeleteNote (Sample.accepting "Bearer tok123") (lit "n9") w).2)
    = [Sample.groceries; Sample.chores]
  ∧ ui (handleDeleteNote (Sample.rejecting 500 "Database unavailable")
          (lit "n1") w).2 = ui w.
Proof.
  cbn zeta. split.
  - destruct (handleDeleteNote_outcome (Sample.accepting "Bearer tok123")
                (lit "n9")
                (Sample.world
                   (Sample.dashboard "" [Sample.groceries; Sample.chores]) ∅))
      as (_ & _ & _ & _ & Habsent & _).
    apply Habsent. intros n Hn.
    apply elem_of_cons in Hn as [->|Hn]; [vm_compute; discriminate|].
    apply list_elem_of_singleton in Hn as ->. vm_compute. discriminate.
  - destruct (handleDeleteNote_outcome
                (Sample.rejecting 500 "Database unavailable") (lit "n1")
                (Sample.world
                   (Sample.dashboard "" [Sample.groceries; Sample.chores]) ∅))
      as (_ & _ & _ & Hrej & _).
    exact (Hrej _ eq_refl).
Defined.

Lemma create_then_delete_restores_witness :
  let server := Sample.accepting "Bearer tok123" in
  let w := Sample.world (Sample.dashboard "Groceries" [Sample.chores]) ∅ in
  notes (ui (handleDeleteNote server (lit "n1") (handleCreateNote server w).2).2)
    = [Sample.chores].
Proof.
  cbn zeta.
  refine (create_then_delete_restores (Sample.accepting "Bearer tok123")
            (Sample.world (Sample.dashboard "Groceries" [Sample.chores]) ∅)
            _ {| note := Sample.groceries |} _ _ eq_refl eq_refl eq_refl _
            eq_refl).
  - vm_compute. discriminate.
  - intros n Hn. apply list_elem_of_singleton in Hn as ->.
    vm_compute. discriminate.
Defined.

Lemma handleLogout_always_leaves_witness :
  let stored := {[ lit "authToken" := lit "tok123" ]} in
  let w := Sample.world (Sample.dashboard "" []) stored in
  localStorage (handleLogout (Sample.rejecting 500 "Database unavailable") w).2
    = stored
  ∧ navigation (handleLogout (Sample.rejecting 500 "Database unavailable") w).2
    = [router_push (lit "/signin")].
Proof.
  cbn zeta.
  destruct (handleLogout_always_leaves
              (Sample.rejecting 500 "Database unavailable")
              (Sample.world (Sample.dashboard "" [])
                 {[ lit "authToken" := lit "tok123" ]}))
    as (_ & Hnav & _ & _ & _ & Hkeep).
  split; [exact (Hkeep _ eq_refl) | exact Hnav].
Defined.

End DashboardMore.

(** ** The sign-in and sign-up forms, beyond the claim *)

Module AuthFormMore.
Import Http Browser Api ApiFacts AuthForm AuthFormFacts.

Section Submit.
Context (server : Server).

(** X12. Every submission settles: whatever the remote API answers, each
    of the three submit handlers returns without throwing, with
    [isLoading] false and with no error text set. A failed login, signup or
    verification therefore shows no message, since the failure reaches the
    handler as a plain [Error] and its [isAxiosError] test is false. A form
    that is in the OTP-sent state stays in it. *)
Theorem submit_always_settles (w : World State) (values : SignInValues)
  (form : SignupData) :
  Forall (λ run : Completion JsError unit * World State,
            run.1 = Normal tt
            ∧ isLoading (ui run.2) = false
            ∧ error (ui run.2) = None
            ∧ (otpSent (ui w) = true → otpSent (ui run.2) = true))
    [SignInClient.onSubmit server values w;
     SignInPageClient.onSubmit server values w;
     SignUpClient.onSubmit server form w].
Proof.
  repeat apply Forall_cons_2; [| | |apply Forall_nil_2];
    unfold_submit; destruct (otpSent (ui w)) eqn:Hphase; cbn [negb];
    try rewrite login_run; try rewrite verifyOTP_run; try rewrite signup_run;
    cbn zeta.
  all: match goal with
       | |- context [server ?e ?l ?rq] =>
           destruct (server e l rq)
             as [[st hs [[|] ms da]]|[[[st' [m|]]|]| |]]
       end.
  all: cbn [headers response_data success];
    try match goal with
        | |- context [?hs !! lit "authorization"] =>
            destruct (hs !! lit "authorization") as [h|];
            [destruct (truthy h && startsWith (lit "Bearer ") h)|]
        end.
  all: repeat split; try reflexivity; intros H;
    first [discriminate H | exact Hphase].
Qed.

(** X13. A submission that gets no successful answer changes nothing
    but the request log: when every response the remote API gives is either
    a rejection or has [success] false, each of the three handlers sends
    its one request and leaves the form in the phase it was in, with no
    navigation made and no timer set. *)
Theorem unsuccessful_submit_keeps_phase (w : World State)
  (values : SignInValues) (form : SignupData) :
  (∀ e rq r, server e (sent w) rq = Fulfilled r →
             success (response_data r) = false) →
  Forall (λ run : Completion JsError unit * World State,
            otpSent (ui run.2) = otpSent (ui w)
            ∧ navigation run.2 = navigation w
            ∧ timers run.2 = timers w
            ∧ length (sent run.2) = Datatypes.S (length (sent w)))
    [SignInClient.onSubmit server values w;
     SignInPageClient.onSubmit server values w;
     SignUpClient.onSubmit server form w].
Proof.
  intros Hfail.
  repeat apply Forall_cons_2; [| | |apply Forall_nil_2];
    unfold_submit; destruct (otpSent (ui w)) eqn:Hphase; cbn [negb];
    try rewrite login_run; try rewrite verifyOTP_run; try rewrite signup_run;
    cbn zeta; cbn [sent with_ui].
  all: match goal with
       | |- context [server ?e ?l ?rq] =>
           destruct (server e l rq)
             as [[st hs [[|] ms da]]|[[[st' [m|]]|]| |]] eqn:Hcall
       end.
  all: try (apply Hfail in Hcall; discriminate Hcall).
  all: cbn [headers response_data success];
    try match goal with
        | |- context [?hs !! lit "authorization"] =>
            destruct (hs !! lit "authorization") as [h|];
            [destruct (truthy h && startsWith (lit "Bearer ") h)|]
        end.
  all: repeat split; try reflexivity;
    first [exact Hphase | cbn; rewrite ?length_app; cbn; lia].
Qed.

End Submit.

Lemma submit_always_settles_witness :
  let run := SignInClient.onSubmit (Sample.rejecting 400 "Invalid OTP")
               Sample.signin_values (Sample.world (Sample.form true) ∅) in
  run.1 = Normal tt ∧ isLoading (ui run.2) = false ∧ error (ui run.2) = None
  ∧ otpSent (ui run.2) = true.
Proof.
  cbn zeta.
  pose proof (submit_always_settles (Sample.rejecting 400 "Invalid OTP")
                (Sample.world (Sample.form true) ∅)
                Sample.signin_values Sample.signup_values) as H.
  apply Forall_cons_1 in H as [(Hret & Hload & Herr & Hotp) _].
  split; [exact Hret|]. split; [exact Hload|]. split; [exact Herr|].
  apply Hotp. reflexivity.
Defined.

Lemma unsuccessful_submit_keeps_phase_witness :
  let run := SignInClient.onSubmit (Sample.rejecting 400 "Invalid OTP")
               Sample.signin_values (Sample.world (Sample.form true) ∅) in
  otpSent (ui run.2) = true ∧ navigation run.2 = [] ∧ timers run.2 = [].
Proof.
  cbn zeta.
  pose proof (unsuccessful_submit_keeps_phase
                (Sample.rejecting 400 "Invalid OTP")
                (Sample.world (Sample.form true) ∅)
                Sample.signin_values Sample.signup_values) as H.
  apply Forall_cons_1 in H as [(Hotp & Hnav & Htimers & _) _].
  - split; [exact Hotp|]. split; [exact Hnav | exact Htimers].
  - intros e rq r Hcall. destruct e; discriminate Hcall.
Defined.

End AuthFormMore.

(** ** The home page *)

Module HomeMore.
Import Http Browser Api ApiFacts Home.

Section Check.
Context (server : Server).

Lemma getProfile_run (w : World State) :
  getProfile server w =
  let config := outgoing w GET (lit "/auth/profile") NoBody in
  match server EpProfile (sent w) config with
  | Fulfilled r => (Normal (response_data r), with_sent config w)
  | Rejected err =>
      (Throw (Error (if isAxiosError err
                     then or_else (response_data_message err)
                            (lit "Get profile failed")
                     else lit "Get profile failed")),
       with_sent config w)
  end.
Proof.
  exact (plain_call_run server EpProfile GET (lit "/auth/profile") NoBody
           (lit "Get profile failed") w).
Qed.

(** X14. The home page always redirects, exactly once, and then stops
    checking: it sends one GET /auth/profile, calls [router.replace] once,
    with /dashboard when the profile response has [success] and with
    /signin in every other case (an unsuccessful response or any failure of
    the call), and ends with [isChecking] false without throwing. It never
    touches localStorage. *)
Theorem checkAuthAndRedirect_outcome (w : World State) :
  let rq := outgoing w GET (lit "/auth/profile") NoBody in
  let w' := (checkAuthAndRedirect server w).2 in
  (checkAuthAndRedirect server w).1 = Normal tt
  ∧ isChecking (ui w') = false
  ∧ sent w' = sent w ++ [rq]
  ∧ localStorage w' = localStorage w
  ∧ ∃ target,
      replaced (ui w') = replaced (ui w) ++ [target]
      ∧ (target = lit "/dashboard" ∨ target = lit "/signin")
      ∧ (target = lit "/dashboard"
         ↔ ∃ r, server EpProfile (sent w) rq = Fulfilled r
                ∧ success (response_data r) = true).
Proof.
  cbn zeta. unfold checkAuthAndRedirect, try_finally, try_catch, bind.
  rewrite getProfile_run. cbn zeta.
  unfold replace, setIsChecking, setState, modify.
  destruct (server EpProfile _ _) as [[st hs [[|] ms da]]|err] eqn:Hcall;
    cbn [fst snd ui with_ui with_sent sent localStorage isChecking replaced
         response_data success];
    (split; [reflexivity|]); (split; [reflexivity|]);
    (split; [reflexivity|]); (split; [reflexivity|]).
  - exists (lit "/dashboard"). split; [reflexivity|]. split; [left; reflexivity|].
    split; [|reflexivity]. intros _. eexists. split; reflexivity.
  - exists (lit "/signin"). split; [reflexivity|]. split; [right; reflexivity|].
    split; [discriminate|]. intros (r & [= <-] & H). discriminate H.
  - exists (lit "/signin"). split; [reflexivity|]. split; [right; reflexivity|].
    split; [discriminate|]. intros (r & [=] & _).
Qed.

End Check.

Lemma checkAuthAndRedirect_outcome_witness :
  replaced (ui (checkAuthAndRedirect (Sample.accepting "Bearer tok123")
                  (Sample.world Home.initial ∅)).2) = [lit "/dashboard"]
  ∧ replaced (ui (checkAuthAndRedirect (Sample.rejecting 401 "Unauthorized")
                    (Sample.world Home.initial ∅)).2) = [lit "/signin"].
Proof.
  split.
  - destruct (checkAuthAndRedirect_outcome (Sample.accepting "Bearer tok123")
                (Sample.world Home.initial ∅))
      as (_ & _ & _ & _ & target & Hrep & _ & Hiff).
    rewrite Hrep.
    assert (Ht : target = lit "/dashboard")
      by (apply Hiff; eexists; split; reflexivity).
    rewrite Ht. reflexivity.
  - destruct (checkAuthAndRedirect_outcome (Sample.rejecting 401 "Unauthorized")
                (Sample.world Home.initial ∅))
      as (_ & _ & _ & _ & target & Hrep & [Hd|Hs] & Hiff).
    + apply Hiff in Hd as (r & Hcall & _). discriminate Hcall.
    + rewrite Hrep, Hs. reflexivity.
Defined.

End HomeMore.

(** ** The middleware with the backend check, beyond the claims *)

Module EdgeMore.
Import Fetch Edge Gating EdgeFacts JsFacts.

(** X15. The middleware's authentication check fails closed: it always
    returns a boolean, after exactly one profile request that forwards the
    request's cookie header (the empty string when there is none), and it
    returns true only when the backend answered with status 200 and a body
    that parses as JSON. A network failure, an unparsable body, a 401 and
    every status other than 200 all give false. *)
Theorem checkAuthentication_fails_closed (rt : Runtime)
  (request : NextRequest) (log : list Request) :
  let rq := profile_request rt (or_else (cookie_header request) (lit "")) in
  ∃ b,
    GatingMiddleware.checkAuthentication rt request log = (Normal b, log ++ [rq])
    ∧ (b = true ↔ ∃ r, backend rt rq = Responds r
                       ∧ status r = 200 ∧ body r ≠ JsonRejects).
Proof.
  cbn zeta. rewrite checkAuthentication_run. cbn zeta.
  eexists. split; [reflexivity|].
  destruct (backend rt _) as [|r].
  - split; [discriminate|]. intros (r & [=] & _).
  - destruct (body r) eqn:Hbody.
    + split; [discriminate|]. intros (r' & [= <-] & _ & Hne).
      contradiction.
    + destruct (status r =? 401) eqn:H401.
      * split; [discriminate|]. intros (r' & [= <-] & H200 & _).
        rewrite H200 in H401. discriminate H401.
      * split.
        -- intros H. apply andb_true_iff in H as [_ H].
           apply Z.eqb_eq in H. exists r. rewrite Hbody.
           split; [reflexivity|]. split; [exact H | discriminate].
        -- intros (r' & [= <-] & H200 & _). unfold ok. rewrite H200.
           reflexivity.
    + destruct (status r =? 401) eqn:H401.
      * split; [discriminate|]. intros (r' & [= <-] & H200 & _).
        rewrite H200 in H401. discriminate H401.
      * split.
        -- intros H. apply andb_true_iff in H as [_ H].
           apply Z.eqb_eq in H. exists r. rewrite Hbody.
           split; [reflexivity|]. split; [exact H | discriminate].
        -- intros (r' & [= <-] & H200 & _). unfold ok. rewrite H200.
           reflexivity.
Qed.

Lemma checkAuthentication_fails_closed_witness :
  (GatingMiddleware.checkAuthentication Sample.rt_session
     (Sample.request_for "/dashboard" (Some (lit "authToken=abc"))) []).1
    = Normal true
  ∧ (GatingMiddleware.checkAuthentication Sample.rt_down
       (Sample.request_for "/dashboard" (Some (lit "authToken=abc"))) []).1
    = Normal false.
Proof.
  split.
  - destruct (checkAuthentication_fails_closed Sample.rt_session
                (Sample.request_for "/dashboard" (Some (lit "authToken=abc")))
                []) as (b & Hrun & Hiff).
    rewrite Hrun. cbn [fst]. f_equal. apply Hiff.
    eexists. split; [reflexivity|]. split; [reflexivity | discriminate].
  - destruct (checkAuthentication_fails_closed Sample.rt_down
                (Sample.request_for "/dashboard" (Some (lit "authToken=abc")))
                []) as (b & Hrun & Hiff).
    rewrite Hrun. cbn [fst]. f_equal. apply not_true_is_false.
    intros Hb. apply Hiff in Hb as (r & Hr & _). discriminate Hr.
Defined.

(** A path under /dashboard is under neither /signin nor /signup, and is
    not the root. *)
Lemma protected_is_not_auth_route (p : jsstring) :
  startsWith (lit "/dashboard") p = true →
  existsb (λ route, startsWith route p) GatingMiddleware.authRoutes = false
  ∧ eqb p (lit "/") = false.
Proof.
  intros H. apply startsWith_inv in H. rewrite H. split; reflexivity.
Qed.

Lemma auth_route_is_not_protected (p : jsstring) :
  existsb (λ route, startsWith route p) GatingMiddleware.authRoutes = true →
  existsb (λ route, startsWith route p) GatingMiddleware.protectedRoutes = false
  ∧ eqb p (lit "/") = false.
Proof.
  cbn [existsb GatingMiddleware.authRoutes]. rewrite orb_false_r.
  intros H. apply orb_true_iff in H as [H|H];
    apply startsWith_inv in H; rewrite H; split; reflexivity.
Qed.

(** X16. The middleware guards by prefix and never routes the wrong way.
    Any path that starts with /dashboard, requested without
    authentication, is redirected to /signin with the original path kept in
    the [redirect] query parameter; requested with authentication it is
    passed on. Any path that starts with /signin or /signup is redirected
    to /dashboard when authenticated and passed on when not. On no path is
    an authenticated request sent to /signin or an unauthenticated one to
    /dashboard. *)
Theorem middleware_routes_by_prefix (rt : Runtime) (request : NextRequest) :
  let p := pathname request in
  let b := edge_authenticated rt request in
  let resp := (GatingMiddleware.middleware rt request []).1 in
  (startsWith (lit "/dashboard") p = true →
   resp = Normal (if b then next
                  else redirect {| url_origin := origin request;
                                   url_pathname := lit "/signin";
                                   searchParams := [(lit "redirect", p)] |}))
  ∧ (startsWith (lit "/signin") p = true ∨ startsWith (lit "/signup") p = true →
     resp = Normal (if b then redirect (new_URL (lit "/dashboard") request)
                    else next))
  ∧ (∃ r, resp = Normal r
          ∧ (b = true → routed_to r ≠ Some (lit "/signin"))
          ∧ (b = false → routed_to r ≠ Some (lit "/dashboard"))).
Proof.
  cbn zeta. destruct (middleware_run rt request []) as (log' & Hrun).
  rewrite Hrun. cbn [fst]. cbn zeta.
  split; [|split].
  - intros Hp. destruct (protected_is_not_auth_route _ Hp) as [Ha Hr].
    cbn [existsb GatingMiddleware.protectedRoutes]. rewrite Hp, Ha, Hr.
    destruct (edge_authenticated rt request); reflexivity.
  - intros Hp.
    assert (Ha : existsb (λ route, startsWith route (pathname request))
                   GatingMiddleware.authRoutes = true).
    { cbn [existsb GatingMiddleware.authRoutes]. rewrite orb_false_r.
      apply orb_true_iff. exact Hp. }
    destruct (auth_route_is_not_protected _ Ha) as [Hpr Hr].
    rewrite Hpr, Ha, Hr.
    destruct (edge_authenticated rt request); reflexivity.
  - eexists. split; [reflexivity|].
    destruct (edge_authenticated rt request); cbn [negb];
      rewrite ?andb_false_r, ?andb_true_r;
      repeat match goal with
             | |- context [if ?c then _ else _] => destruct c
             end; split; intros H; try discriminate H;
      cbn; intros [=].
Qed.

(** A visitor without a session asking for a page under /dashboard, and
    one with a session asking for the sign-up page. *)
Lemma middleware_routes_by_prefix_witness :
  (GatingMiddleware.middleware Sample.rt_session
     (Sample.request_for "/dashboard/settings" None) []).1
  = Normal (redirect
              {| url_origin := lit "https://notes.example.com";
                 url_pathname := lit "/signin";
                 searchParams := [(lit "redirect", lit "/dashboard/settings")] |})
  ∧ (GatingMiddleware.middleware Sample.rt_session
       (Sample.request_for "/signup" (Some (lit "authToken=abc"))) []).1
    = Normal (redirect
                {| url_origin := lit "https://notes.example.com";
                   url_pathname := lit "/dashboard"; searchParams := [] |}).
Proof.
  split.
  - destruct (middleware_routes_by_prefix Sample.rt_session
                (Sample.request_for "/dashboard/settings" None))
      as (Hprot & _).
    exact (Hprot eq_refl).
  - destruct (middleware_routes_by_prefix Sample.rt_session
                (Sample.request_for "/signup" (Some (lit "authToken=abc"))))
      as (_ & Hauth & _).
    exact (Hauth (or_intror eq_refl)).
Defined.

End EdgeMore.

(** ** The two backend checks and the pages, side by side *)

Module ServerMore.
Import Fetch Edge Gating AuthServer AuthServerFacts EdgeFacts Pages.

(** X17. The two authentication checks compared on the same cookies and
    the same backend answer. The middleware's check holds exactly when the
    status is 200 and the body parses; the server helper's check holds
    exactly when the authToken cookie is present, the status is any 2xx and
    the body has a [data] object. So whenever the cookie is present and the
    body has [data], a request the middleware takes as authenticated is
    authenticated for the server helper too; without the cookie the server
    helper says no, whatever the middleware says. *)
Theorem checks_compared (env : Env) (request : NextRequest)
  (store : CookieStore) (r : Response) :
  cookies_result env = Some store →
  or_else (cookie_header request) (lit "") = cookie_toString store →
  backend (runtime env) (profile_request (runtime env) (cookie_toString store))
  = Responds r →
  (edge_authenticated (runtime env) request = true
   ↔ status r = 200 ∧ body r ≠ JsonRejects)
  ∧ (server_authenticated env = true
     ↔ is_Some (cookie_get store (lit "authToken"))
       ∧ ok r = true ∧ ∃ u, body r = JsonData u)
  ∧ (is_Some (cookie_get store (lit "authToken")) →
     (∃ u, body r = JsonData u) →
     edge_authenticated (runtime env) request = true →
     server_authenticated env = true)
  ∧ (cookie_get store (lit "authToken") = None →
     server_authenticated env = false).
Proof.
  intros Hstore Hcookie Hback.
  assert (Hedge : edge_authenticated (runtime env) request = true
                  ↔ status r = 200 ∧ body r ≠ JsonRejects).
  { unfold edge_authenticated. rewrite checkAuthentication_run. cbn zeta.
    cbn [fst]. rewrite Hcookie, Hback.
    destruct (body r); [split; [discriminate | intros [_ H]; contradiction]| |];
      (destruct (status r =? 401) eqn:H401;
       [split; [discriminate|];
        intros [H200 _]; rewrite H200 in H401; discriminate H401|]);
      (split;
       [intros H; apply andb_true_iff in H as [_ H]; apply Z.eqb_eq in H;
        split; [exact H | discriminate]
       |intros [H200 _]; unfold ok; rewrite H200; reflexivity]). }
  assert (Hserver : server_authenticated env = true
                    ↔ is_Some (cookie_get store (lit "authToken"))
                      ∧ ok r = true ∧ ∃ u, body r = JsonData u).
  { unfold server_authenticated. rewrite getServerAuth_run, Hstore.
    destruct (cookie_get store (lit "authToken")) as [tok|].
    - cbn zeta. rewrite Hback. destruct (ok r).
      + destruct (body r) as [| |u]; cbn [fst isAuthenticated unauthenticated].
        * split; [discriminate|]. intros (_ & _ & u & [=]).
        * split; [discriminate|]. intros (_ & _ & u & [=]).
        * split; [|reflexivity]. intros _. eauto.
      + cbn. split; [discriminate|]. intros (_ & [=] & _).
    - cbn. split; [discriminate|]. intros ([x [=]] & _). }
  split; [exact Hedge|]. split; [exact Hserver|]. split.
  - intros Hc Hb He. apply Hserver. split; [exact Hc|]. split; [|exact Hb].
    apply Hedge in He as [H200 _]. unfold ok. rewrite H200. reflexivity.
  - intros Hnone. apply not_true_is_false. intros Hs.
    apply Hserver in Hs as ([x Hx] & _). rewrite Hnone in Hx. discriminate Hx.
Qed.

(** The signed-in sample passes both checks. *)
Lemma checks_compared_witness :
  edge_authenticated Sample.rt_session
    (Sample.request_for "/dashboard" (Some (lit "authToken=abc"))) = true
  ∧ server_authenticated Sample.env_signed_in = true.
Proof.
  destruct (checks_compared Sample.env_signed_in
              (Sample.request_for "/dashboard" (Some (lit "authToken=abc")))
              Sample.store_with_token
              {| status := 200; body := JsonData (Some Sample.alice) |}
              eq_refl eq_refl eq_refl) as (Hedge & _ & Himp & _).
  assert (He : edge_authenticated (runtime Sample.env_signed_in)
                 (Sample.request_for "/dashboard" (Some (lit "authToken=abc")))
               = true).
  { apply Hedge. split; [reflexivity | discriminate]. }
  split; [exact He|].
  apply Himp; [eexists; reflexivity | eexists; reflexivity | exact He].
Defined.

(** X18. The guarded pages never fail and never serve both sides: each
    of the three pages either renders or redirects; when the dashboard
    renders, the sign-in and sign-up pages redirect to /dashboard; when the
    sign-in or sign-up page renders, the dashboard redirects to /signin.
    Both sides redirect (to each other) exactly when the backend reports
    success but the body carries no user. *)
Theorem pages_are_exclusive (env : Env) :
  (serve DashboardPage env ≠ Failed ∧ serve SignInPage env ≠ Failed
   ∧ serve SignUpPage env ≠ Failed)
  ∧ (∀ e, serve DashboardPage env = Rendered e →
          serve SignInPage env = Redirected (lit "/dashboard")
          ∧ serve SignUpPage env = Redirected (lit "/dashboard"))
  ∧ (∀ e, serve SignInPage env = Rendered e ∨ serve SignUpPage env = Rendered e →
          serve DashboardPage env = Redirected (lit "/signin"))
  ∧ (serve DashboardPage env = Redirected (lit "/signin")
     ∧ serve SignInPage env = Redirected (lit "/dashboard")
     ↔ ∃ log, getServerAuth env [] =
              (Normal {| user := None; isAuthenticated := true |}, log)).
Proof.
  destruct (getServerAuth_returns env []) as (r & log & H).
  unfold serve, DashboardPage, SignInPage, SignUpPage, bind.
  rewrite (requireAuth_run env [] log r H),
    (redirectIfAuthenticated_run env [] log r H), H.
  destruct r as [[u|] [|]]; cbn;
    repeat split; try discriminate; try reflexivity; intros;
    repeat match goal with
           | H : _ ∨ _ |- _ => destruct H
           | H : ∃ _, _ |- _ => destruct H
           | H : _ ∧ _ |- _ => destruct H
           end; simplify_eq; eauto.
Qed.

(** A backend that reports success without a user makes the dashboard and
    the sign-in page redirect to each other. *)
Lemma pages_are_exclusive_witness :
  let env := {| runtime :=
                  {| NEXT_PUBLIC_API_URL := None;
                     backend := λ _, Responds {| status := 200;
                                                 body := JsonData None |} |};
                cookies_result := Some Sample.store_with_token |} in
  serve DashboardPage env = Redirected (lit "/signin")
  ∧ serve SignInPage env = Redirected (lit "/dashboard").
Proof.
  cbn zeta.
  apply (pages_are_exclusive
           {| runtime :=
                {| NEXT_PUBLIC_API_URL := None;
                   backend := λ _, Responds {| status := 200;
                                               body := JsonData None |} |};
              cookies_result := Some Sample.store_with_token |}).
  eexists. vm_compute. reflexivity.
Defined.

End ServerMore.

(** ** The matcher of the middleware with the backend check *)

Module MatcherMore.
Import JsFacts GatingMiddleware.

Lemma endsWith_app (q x : jsstring) : endsWith q (x ++ q) = true.
Proof.
  unfold endsWith. rewrite List.rev_app_distr. apply startsWith_app.
Qed.

(** X19. What the matcher keeps away from the middleware: every path
    that begins with /api, /_next/static or /_next/image (as a plain
    prefix, so /apiary too), and every path that ends in a dot and one of
    the listed image extensions, wherever it lies (so /dashboard/chart.png
    is not guarded). Every path it does take starts with a slash. *)
Theorem matcher_exclusions (rest p ext : jsstring) :
  matcher (lit "/api" ++ rest) = false
  ∧ matcher (lit "/_next/static" ++ rest) = false
  ∧ matcher (lit "/_next/image" ++ rest) = false
  ∧ (ext ∈ imageExtensions → matcher (p ++ lit "." ++ ext) = false)
  ∧ (matcher p = true → ∃ rest', p = lit "/" ++ rest').
Proof.
  split; [|split; [|split; [|split]]].
  - change (lit "/api" ++ rest) with (47%N :: (lit "api" ++ rest)).
    unfold matcher, excluded. rewrite startsWith_app.
    cbn [orb negb]. apply andb_false_r.
  - change (lit "/_next/static" ++ rest)
      with (47%N :: (lit "_next/static" ++ rest)).
    unfold matcher, excluded. rewrite (startsWith_app (lit "_next/static")).
    rewrite orb_true_r. cbn [orb negb]. apply andb_false_r.
  - change (lit "/_next/image" ++ rest)
      with (47%N :: (lit "_next/image" ++ rest)).
    unfold matcher, excluded. rewrite (startsWith_app (lit "_next/image")).
    rewrite !orb_true_r. cbn [orb negb]. apply andb_false_r.
  - intros Hext. destruct p as [|c p'].
    + apply list_elem_of_In in Hext.
      cbn in Hext. destruct Hext as [<-|[<-|[<-|[<-|[<-|[<-|[]]]]]]];
        reflexivity.
    + change ((c :: p') ++ lit "." ++ ext) with (c :: (p' ++ lit "." ++ ext)).
      unfold matcher, excluded.
      assert (Himg : existsb (λ e, endsWith (lit "." ++ e)
                                     (p' ++ lit "." ++ ext))
                       imageExtensions = true).
      { apply List.existsb_exists. exists ext.
        split; [apply list_elem_of_In; exact Hext | apply endsWith_app]. }
      rewrite Himg, orb_true_r. cbn [negb]. apply andb_false_r.
  - intros H. destruct p as [|c rest']; [discriminate|].
    cbn [matcher] in H. apply andb_true_iff in H as [H _].
    apply andb_true_iff in H as [H _]. apply N.eqb_eq in H. subst c.
    exists rest'. reflexivity.
Qed.

Lemma matcher_exclusions_witness :
  matcher (lit "/dashboard/chart" ++ lit "." ++ lit "png") = false
  ∧ ∃ rest', lit "/dashboard" = lit "/" ++ rest'.
Proof.
  destruct (matcher_exclusions (lit "") (lit "/dashboard/chart") (lit "png"))
    as (_ & _ & _ & Himg & _).
  destruct (matcher_exclusions (lit "") (lit "/dashboard") (lit "png"))
    as (_ & _ & _ & _ & Hslash).
  split.
  - apply Himg. apply list_elem_of_In. cbn. tauto.
  - apply Hslash. reflexivity.
Defined.

End MatcherMore.
